(** * The dashboard front end (src/frontend/app.js), embedded in Rocq

    The script is one DOMContentLoaded handler that wires a handful of
    functions to the page.  Each function is embedded here as a pure
    function on an explicit [Page] record: the part of the browser state
    the script reads and writes (the theme marker, localStorage, the two
    table containers, the symbol selector, the Plotly charts, the alerts
    shown and the files downloaded).  An awaited fetch is modelled by
    passing its response to the continuation of the handler.

    JavaScript strings are modelled by [string]: ASCII text is represented
    exactly, and [toLowerCase] and [trim] act on ASCII letters and ASCII
    white space. *)

From Stdlib Require Import ZArith Ascii String List DecimalString Lia.
From stdpp Require Import base option list strings gmap.

Local Open Scope string_scope.

(** ** Strings *)

Module Str.

(** The double quote, the newline and the tab, given by their codes. *)
Definition dquote_char : ascii := "034"%char.
Definition newline_char : ascii := "010"%char.
Definition tab_char : ascii := "009"%char.

Definition dquote : string := String dquote_char EmptyString.
Definition newline : string := String newline_char EmptyString.
Definition tab : string := String tab_char EmptyString.

(** [String.prototype.toLowerCase], on ASCII. *)
Definition lower_ascii (c : ascii) : ascii :=
  let n := nat_of_ascii c in
  if (65 <=? n)%nat && (n <=? 90)%nat then ascii_of_nat (n + 32) else c.

Fixpoint toLowerCase (s : string) : string :=
  match s with
  | EmptyString => EmptyString
  | String c r => String (lower_ascii c) (toLowerCase r)
  end.

(** [s.includes(q)]: [q] occurs in [s] as a contiguous substring. *)
Fixpoint includes (s q : string) : bool :=
  String.prefix q s ||
  match s with
  | EmptyString => false
  | String _ r => includes r q
  end.

(** White space removed by [String.prototype.trim], on ASCII:
    TAB, LF, VT, FF, CR and SPACE. *)
Definition is_space (c : ascii) : bool :=
  let n := nat_of_ascii c in
  ((9 <=? n)%nat && (n <=? 13)%nat) || (n =? 32)%nat.

Fixpoint trimStart (s : string) : string :=
  match s with
  | EmptyString => EmptyString
  | String c r => if is_space c then trimStart r else s
  end.

Fixpoint trimEnd (s : string) : string :=
  match s with
  | EmptyString => EmptyString
  | String c r =>
      let r' := trimEnd r in
      if is_space c && String.eqb r' EmptyString then EmptyString
      else String c r'
  end.

Definition trim (s : string) : string := trimEnd (trimStart s).

(** [parts.join(sep)]. *)
Fixpoint join (sep : string) (parts : list string) : string :=
  match parts with
  | [] => EmptyString
  | [p] => p
  | p :: rest => p +:+ sep +:+ join sep rest
  end.

(** [s.replace(/QUOTE/g, QUOTE QUOTE)]: every double quote is doubled. *)
Fixpoint doubleQuotes (s : string) : string :=
  match s with
  | EmptyString => EmptyString
  | String c r =>
      if Ascii.eqb c dquote_char
      then String dquote_char (String dquote_char (doubleQuotes r))
      else String c (doubleQuotes r)
  end.

Fixpoint concat (parts : list string) : string :=
  match parts with
  | [] => EmptyString
  | p :: rest => p +:+ concat rest
  end.

(** The white space that layout collapses under the default
    [white-space: normal]: SPACE, TAB, LF and CR. *)
Definition is_collapsible (c : ascii) : bool :=
  let n := nat_of_ascii c in
  (n =? 32)%nat || (n =? 9)%nat || (n =? 10)%nat || (n =? 13)%nat.

Fixpoint dropCollapsible (s : string) : string :=
  match s with
  | EmptyString => EmptyString
  | String c r => if is_collapsible c then dropCollapsible r else s
  end.

(** [pending] says that white space was met since the last character
    kept. *)
Fixpoint collapseFrom (pending : bool) (s : string) : string :=
  match s with
  | EmptyString => EmptyString
  | String c r =>
      if is_collapsible c then collapseFrom true r
      else if pending then String " "%char (String c (collapseFrom false r))
      else String c (collapseFrom false r)
  end.

(** The text of a run of characters as a line of a laid-out box shows it:
    each run of collapsible white space becomes one space, and white space
    at the start and at the end of the line is removed. *)
Definition collapse (s : string) : string := collapseFrom false (dropCollapsible s).

End Str.

(** ** JavaScript values *)

(** A Number.  A finite non-zero double is carried by the decimal the
    language itself prints for it: [Finite neg s n] is the number whose
    shortest round-trip decimal has the digits of [s] (trailing zeros do
    not count) and whose value is [0.s * 10^n], negated when [neg].  These
    are the integers [s], [k] and [n] that Number::toString of the
    language standard is defined on. *)
Inductive JsNumber : Type :=
  | NaN
  | Zero (neg : bool)
  | Infinity (neg : bool)
  | Finite (neg : bool) (s : positive) (n : Z).

(** A value as [res.json()] yields it, or [undefined] for a missing
    field. *)
#[local] Set Warnings "-register-all".
Inductive JsVal : Type :=
  | VUndefined
  | VNull
  | VBool (b : bool)
  | VNum (x : JsNumber)
  | VStr (s : string)
  | VArr (items : list JsVal)
  | VObj (fields : list (string * JsVal)).

Module Js.

Definition digits (p : positive) : string :=
  NilEmpty.string_of_uint (Pos.to_uint p).

Fixpoint stripTrailingZeros (s : string) : string :=
  match s with
  | EmptyString => EmptyString
  | String c r =>
      let r' := stripTrailingZeros r in
      if Ascii.eqb c "0"%char && String.eqb r' EmptyString then EmptyString
      else String c r'
  end.

Fixpoint zeros (n : nat) : string :=
  match n with
  | O => EmptyString
  | S m => String "0"%char (zeros m)
  end.

(** Number::toString(x) for a finite non-zero [x] of digits [s] and
    exponent [n], following the five cases of the standard. *)
Definition finiteToString (s : positive) (n : Z) : string :=
  let ds := stripTrailingZeros (digits s) in
  let k := Z.of_nat (String.length ds) in
  if ((k <=? n) && (n <=? 21))%Z then
    ds +:+ zeros (Z.to_nat (n - k))
  else if ((0 <? n) && (n <=? 21))%Z then
    String.substring 0 (Z.to_nat n) ds +:+ "." +:+
    String.substring (Z.to_nat n) (Z.to_nat (k - n)) ds
  else if ((-6 <? n) && (n <=? 0))%Z then
    "0." +:+ zeros (Z.to_nat (- n)) +:+ ds
  else
    let e := (n - 1)%Z in
    let exponent :=
      (if (e <? 0)%Z then "-" else "+") +:+
      NilEmpty.string_of_uint (N.to_uint (Z.abs_N e)) in
    if (k =? 1)%Z then ds +:+ "e" +:+ exponent
    else String.substring 0 1 ds +:+ "." +:+
         String.substring 1 (Z.to_nat (k - 1)) ds +:+ "e" +:+ exponent.

Definition numberToString (x : JsNumber) : string :=
  match x with
  | NaN => "NaN"
  | Zero _ => "0"
  | Infinity neg => if neg then "-Infinity" else "Infinity"
  | Finite neg s n => (if neg then "-" else "") +:+ finiteToString s n
  end.

(** [String(v)].  For an object it is the text that Object.prototype.toString
    gives; an object with a member of its own named toString, for which
    String throws, is outside the model. *)
Fixpoint toString (v : JsVal) : string :=
  match v with
  | VUndefined => "undefined"
  | VNull => "null"
  | VBool b => if b then "true" else "false"
  | VNum x => numberToString x
  | VStr s => s
  | VArr items =>
      Str.join ","
        (List.map (fun item =>
                     match item with
                     | VUndefined | VNull => EmptyString
                     | _ => toString item
                     end) items)
  | VObj _ => "[object Object]"
  end.

(** ToBoolean: what [!v] and [v || w] test. *)
Definition truthy (v : JsVal) : bool :=
  match v with
  | VUndefined | VNull => false
  | VBool b => b
  | VNum NaN | VNum (Zero _) => false
  | VNum _ => true
  | VStr s => negb (String.eqb s EmptyString)
  | VArr _ | VObj _ => true
  end.

(** [v ?? w]. *)
Definition nullish (v w : JsVal) : JsVal :=
  match v with
  | VUndefined | VNull => w
  | _ => v
  end.

(** Assignment to [textContent], a nullable DOMString: [null] and
    [undefined] give the empty text, anything else its [String]. *)
Definition asTextContent (v : JsVal) : string :=
  match v with
  | VUndefined | VNull => EmptyString
  | _ => toString v
  end.

End Js.

(** ** Records received from the server *)

(** One element of the array served at /api/analysis/SYMBOL.  A field the
    object lacks is [VUndefined]. *)
Record HourlyStat : Type := mkHourlyStat {
  hour_utc : JsVal;
  avg_volume : JsVal;
  avg_range : JsVal
}.

(** One element of the array served at /api/positions. *)
Record Position : Type := mkPosition {
  p_symbol : JsVal;
  p_side : JsVal;
  p_size : JsVal;
  p_entry_price : JsVal;
  p_status : JsVal
}.

(** [p[k]] for a property name [k]. *)
Definition Position_get (p : Position) (k : string) : JsVal :=
  if String.eqb k "symbol" then p_symbol p
  else if String.eqb k "side" then p_side p
  else if String.eqb k "size" then p_size p
  else if String.eqb k "entry_price" then p_entry_price p
  else if String.eqb k "status" then p_status p
  else VUndefined.

(** What an awaited [fetch] resolves to: the HTTP status, and the value
    [res.json()] parses from the body. *)
Record Response (A : Type) : Type := mkResponse {
  http_status : Z;
  json : A
}.
Arguments mkResponse {A} _ _.
Arguments http_status {A} _.
Arguments json {A} _.

(** [res.ok]: the status is in the range 200-299. *)
Definition ok {A : Type} (res : Response A) : bool :=
  ((200 <=? http_status res) && (http_status res <=? 299))%Z.

(** ** The document *)

Inductive CellTag : Type := Th | Td.

(** What a cell holds: the text node its [textContent] was set to, or the
    [span] appended to a status cell. *)
Inductive Content : Type :=
  | Text (text : string)
  | Span (className : string) (text : string).

(** An inline style, as the list of assignments made to [el.style]. *)
Definition Style : Type := list (string * string).

Record Cell : Type := mkCell {
  cell_tag : CellTag;
  cell_style : Style;
  cell_content : Content
}.

(** A [tr]; [row_display] is its [style.display]. *)
Record Row : Type := mkRow {
  row_display : string;
  row_cells : list Cell
}.

Record Table : Type := mkTable {
  table_style : Style;
  thead : list Row;
  tbody : list Row
}.

Record SelectOption : Type := mkOption {
  opt_value : string;
  opt_text : string
}.

(** One call of [Plotly.newPlot]: the single bar trace, the layout and the
    configuration; [plot_margin] is the margin as (t, l, r, b). *)
Record Plot : Type := mkPlot {
  plot_x : list JsVal;
  plot_y : list JsVal;
  plot_type : string;
  plot_marker_color : string;
  plot_title : string;
  plot_paper_bgcolor : string;
  plot_plot_bgcolor : string;
  plot_font_color : string;
  plot_autosize : bool;
  plot_margin : Z * Z * Z * Z;
  plot_responsive : bool
}.

(** A file handed to the user by clicking a link to a Blob. *)
Record Download : Type := mkDownload {
  download_name : string;
  download_type : string;
  download_body : string
}.

(** The state of the page the script works on.
    - [dataTheme]: the data-theme attribute of the root element;
    - [themeToggle]: the checked state of #themeToggle, when it exists;
    - [cssText]: the computed value of the CSS variable --text;
    - [symbolOptions]: the options of the select #symbol;
    - [tableContainer]: the tables inside #table, in document order;
    - [positionsContainer]: the same for #positionsTable, when it exists;
    - [charts]: what Plotly drew last in each chart division;
    - [alerts]: the messages shown with [alert], oldest first;
    - [downloads]: the files downloaded, oldest first.
    The elements the script uses without a test (#symbol, #table, the two
    buttons) are taken to exist. *)
Record Page : Type := mkPage {
  dataTheme : option string;
  localStorage : gmap string string;
  themeToggle : option bool;
  cssText : string;
  symbolOptions : list SelectOption;
  tableContainer : list Table;
  positionsContainer : option (list Table);
  charts : gmap string Plot;
  alerts : list string;
  downloads : list Download
}.

Definition set_theme (d : option string) (l : gmap string string)
    (t : option bool) (st : Page) : Page :=
  mkPage d l t (cssText st) (symbolOptions st) (tableContainer st)
         (positionsContainer st) (charts st) (alerts st) (downloads st).

Definition set_symbolOptions (o : list SelectOption) (st : Page) : Page :=
  mkPage (dataTheme st) (localStorage st) (themeToggle st) (cssText st) o
         (tableContainer st) (positionsContainer st) (charts st) (alerts st)
         (downloads st).

Definition set_tableContainer (c : list Table) (st : Page) : Page :=
  mkPage (dataTheme st) (localStorage st) (themeToggle st) (cssText st)
         (symbolOptions st) c (positionsContainer st) (charts st) (alerts st)
         (downloads st).

Definition set_positionsContainer (c : option (list Table)) (st : Page) : Page :=
  mkPage (dataTheme st) (localStorage st) (themeToggle st) (cssText st)
         (symbolOptions st) (tableContainer st) c (charts st) (alerts st)
         (downloads st).

Definition set_charts (c : gmap string Plot) (st : Page) : Page :=
  mkPage (dataTheme st) (localStorage st) (themeToggle st) (cssText st)
         (symbolOptions st) (tableContainer st) (positionsContainer st) c
         (alerts st) (downloads st).

Definition set_downloads (d : list Download) (st : Page) : Page :=
  mkPage (dataTheme st) (localStorage st) (themeToggle st) (cssText st)
         (symbolOptions st) (tableContainer st) (positionsContainer st)
         (charts st) (alerts st) d.

(** [alert(msg)]. *)
Definition alert (msg : string) (st : Page) : Page :=
  mkPage (dataTheme st) (localStorage st) (themeToggle st) (cssText st)
         (symbolOptions st) (tableContainer st) (positionsContainer st)
         (charts st) (alerts st ++ [msg]) (downloads st).

(** *** Text of rows and cells *)

(** [c.textContent]. *)
Definition textContent (c : Cell) : string :=
  match cell_content c with
  | Text t => t
  | Span _ t => t
  end.

(** A row is rendered unless its display is none (the containers and
    their tables are taken to be laid out). *)
Definition rendered (r : Row) : bool := negb (String.eqb (row_display r) "none").

(** [c.innerText] of a cell.  In a row that is rendered it is the text as
    layout shows it, with its white space collapsed; of a cell that is not
    rendered, innerText is the textContent.  The style sheet is taken not
    to change the default white space processing nor the case of the
    text. *)
Definition innerText (shown : bool) (c : Cell) : string :=
  if shown then Str.collapse (textContent c) else textContent c.

(** [tr.innerText]: the cells of a rendered row are separated by tabs; of
    a row that is not rendered, innerText is the textContent. *)
Definition row_innerText (r : Row) : string :=
  if String.eqb (row_display r) "none"
  then Str.concat (List.map textContent (row_cells r))
  else Str.join Str.tab (List.map (innerText true) (row_cells r)).

(** ** The script *)

(** *** Theme (lines 3-17) *)

(** [localStorage.getItem('theme') || 'dark']: a missing key gives [null],
    and [null] and the empty string are both falsy. *)
Definition savedTheme (st : Page) : string :=
  match localStorage st !! "theme" with
  | Some s => if String.eqb s "" then "dark" else s
  | None => "dark"
  end.

(** The theme part of the DOMContentLoaded handler. *)
Definition initTheme (st : Page) : Page :=
  let saved := savedTheme st in
  set_theme (if String.eqb saved "light" then Some "light" else None)
            (localStorage st)
            (match themeToggle st with
             | Some _ => Some (String.eqb saved "light")
             | None => None
             end)
            st.

(** The change handler of the toggle, run after the user has put the
    checkbox in the state [checked]; there is no handler without the
    toggle. *)
Definition onThemeChange (checked : bool) (st : Page) : Page :=
  match themeToggle st with
  | None => st
  | Some _ =>
      if checked
      then set_theme (Some "light") (<["theme" := "light"]> (localStorage st))
                     (Some checked) st
      else set_theme None (<["theme" := "dark"]> (localStorage st))
                     (Some checked) st
  end.

(** *** fetchSymbols (lines 24-31) *)

(** [opt.value = s] converts with [String]; [opt.textContent = s] is a
    textContent assignment.  The status of the response is not looked
    at. *)
Definition fetchSymbols (res : Response (list JsVal)) (st : Page) : Page :=
  set_symbolOptions
    (List.map (fun s => mkOption (Js.toString s) (Js.asTextContent s)) (json res))
    st.

(** *** renderCharts (lines 42-54) *)

Definition barChart (x y : list JsVal) (color title fontColor : string) : Plot :=
  mkPlot x y "bar" color title "rgba(0,0,0,0)" "rgba(0,0,0,0)" fontColor true
         (40, 40, 20, 40)%Z true.

Definition renderCharts (data : list HourlyStat) (st : Page) : Page :=
  let hours := List.map hour_utc data in
  let vol := List.map avg_volume data in
  let range := List.map avg_range data in
  let cssColor := if String.eqb (cssText st) "" then "#e8eef6" else cssText st in
  let fontColor := Str.trim cssColor in
  set_charts
    (<["rangeChart" := barChart hours range "#0f9b8e" "Rango Promedio por Hora UTC" fontColor]>
       (<["volChart" := barChart hours vol "#0b7fda" "Volumen Promedio por Hora UTC" fontColor]>
          (charts st)))
    st.

(** *** renderTable (lines 56-73) *)

Definition headerCell (h : string) : Cell :=
  mkCell Th [("textAlign", "left"); ("padding", "6px")] (Text h).

Definition dataCell (c : JsVal) : Cell :=
  mkCell Td [("padding", "6px")] (Text (Js.asTextContent c)).

Definition tableStyle : Style := [("width", "100%"); ("borderCollapse", "collapse")].

Definition analysisHeader : Row :=
  mkRow "" (List.map headerCell ["hour_utc"; "avg_volume"; "avg_range"]).

Definition analysisRow (r : HourlyStat) : Row :=
  mkRow "" (List.map dataCell [hour_utc r; avg_volume r; avg_range r]).

Definition analysisTable (data : list HourlyStat) : Table :=
  mkTable tableStyle [analysisHeader] (List.map analysisRow data).

Definition renderTable (data : list HourlyStat) (st : Page) : Page :=
  set_tableContainer [analysisTable data] st.

(** *** loadAnalysis (lines 33-40) *)

Definition loadAnalysis (res : Response (list HourlyStat)) (st : Page) : Page :=
  if negb (ok res) then alert "Error cargando análisis" st
  else
    let data := json res in
    renderTable data (renderCharts data st).

(** *** mapStatusToBadge (lines 75-82) *)

Definition mapStatusToBadge (status : JsVal) : string :=
  if negb (Js.truthy status) then "muted"
  else
    let s := Str.toLowerCase (Js.toString status) in
    if Str.includes s "open" || Str.includes s "active" || Str.includes s "live"
    then "success"
    else if Str.includes s "closed" || Str.includes s "filled" || Str.includes s "cancel"
    then "muted"
    else if Str.includes s "partial" || Str.includes s "warning" || Str.includes s "risk"
    then "warning"
    else "muted".

(** *** renderPositionsTable (lines 84-104) *)

Definition positionsHeader : Row :=
  mkRow "" (List.map headerCell ["symbol"; "side"; "size"; "entry_price"; "status"]).

Definition positionCell (p : Position) (k : string) : Cell :=
  mkCell Td [("padding", "6px")]
         (Text (Js.asTextContent (Js.nullish (Position_get p k) (VStr "")))).

Definition statusCell (p : Position) : Cell :=
  mkCell Td [("padding", "6px")]
         (Span ("badge " +:+ mapStatusToBadge (p_status p))
               (Js.asTextContent (Js.nullish (p_status p) (VStr "")))).

Definition positionRow (p : Position) : Row :=
  mkRow "" (List.map (positionCell p) ["symbol"; "side"; "size"; "entry_price"]
            ++ [statusCell p]).

Definition positionsTable (positions : list Position) : Table :=
  mkTable tableStyle [positionsHeader] (List.map positionRow positions).

Definition renderPositionsTable (positions : list Position) (st : Page) : Page :=
  match positionsContainer st with
  | None => st
  | Some _ => set_positionsContainer (Some [positionsTable positions]) st
  end.

(** The click handler of #positionsBtn (lines 132-137). *)
Definition loadPositions (res : Response (list Position)) (st : Page) : Page :=
  if negb (ok res) then alert "Error cargando posiciones" st
  else renderPositionsTable (json res) st.

(** *** filterTables (lines 106-115) *)

Definition filterRow (q : string) (tr : Row) : Row :=
  let text := Str.toLowerCase (row_innerText tr) in
  mkRow (if String.eqb q "" || Str.includes text q then "" else "none")
        (row_cells tr).

(** Only the rows selected by [tbody tr] are touched. *)
Definition filterTable (q : string) (t : Table) : Table :=
  mkTable (table_style t) (thead t) (List.map (filterRow q) (tbody t)).

Definition filterTables (q : string) (st : Page) : Page :=
  set_positionsContainer
    (match positionsContainer st with
     | Some ts => Some (List.map (filterTable q) ts)
     | None => None
     end)
    (set_tableContainer (List.map (filterTable q) (tableContainer st)) st).

(** The input handler of #globalSearch (line 143). *)
Definition onSearchInput (value : string) (st : Page) : Page :=
  filterTables (Str.trim (Str.toLowerCase value)) st.

(** *** exportCurrentTableCSV (lines 117-129) *)

Definition csvCell (shown : bool) (c : Cell) : string :=
  Str.dquote +:+ Str.doubleQuotes (innerText shown c) +:+ Str.dquote.

Definition csvRow (r : Row) : string :=
  Str.join "," (List.map (csvCell (rendered r)) (row_cells r)) +:+ Str.newline.

(** [table.querySelectorAll('tr')]: the rows in document order. *)
Definition allRows (t : Table) : list Row := thead t ++ tbody t.

Definition tableCSV (t : Table) : string :=
  Str.concat (List.map csvRow (allRows t)).

Definition exportCurrentTableCSV (st : Page) : Page :=
  match tableContainer st with
  | [] => alert "No hay tabla para exportar" st
  | table :: _ =>
      set_downloads
        (downloads st ++
           [mkDownload "analysis_export.csv" "text/csv;charset=utf-8;" (tableCSV table)])
        st
  end.

(** ** Statements of the specification *)

(** The badge category of a lower-cased status text, rule by rule in the
    order the specification gives them. *)
Definition badge_of_text (s : string) : string :=
  if existsb (Str.includes s) ["open"; "active"; "live"] then "success"
  else if existsb (Str.includes s) ["closed"; "filled"; "cancel"] then "muted"
  else if existsb (Str.includes s) ["partial"; "warning"; "risk"] then "warning"
  else "muted".

(** A page that already shows both tables, used to exercise the
    statements. *)
Definition samplePositions : list Position :=
  [ mkPosition (VStr "BTCUSD") (VStr "long") (VNum (Finite false 5 0))
               (VNum (Finite false 42 5)) (VStr "OPEN");
    mkPosition (VStr "ETHUSD") VNull (VNum (Zero false)) VUndefined VUndefined ].

Definition sampleStats : list HourlyStat :=
  [ mkHourlyStat (VNum (Finite false 3 1)) (VNum (Finite false 1205 3))
                 (VNum (Finite false 2 (-1))) ].

Definition emptyPage : Page :=
  mkPage None ∅ (Some false) "" [] [] (Some []) ∅ [] [].

Definition samplePage : Page :=
  loadPositions (mkResponse 200%Z samplePositions)
    (loadAnalysis (mkResponse 200%Z sampleStats) emptyPage).

(** A line of CSV from the texts of the cells of a row. *)
Definition csvLine (texts : list string) : string :=
  Str.join "," (List.map (fun t => Str.dquote +:+ Str.doubleQuotes t +:+ Str.dquote) texts)
  +:+ Str.newline.

(** The texts the cells of a row hold. *)
Definition rowTexts (r : Row) : list string := List.map textContent (row_cells r).

(** The texts the export reads from a row: the innerText of its cells. *)
Definition exportedTexts (r : Row) : list string :=
  List.map (innerText (rendered r)) (row_cells r).


(** The text of the specification's example, character by character. *)
Definition exampleCSV : string :=
  Str.concat
    [ Str.dquote; "hour_utc"; Str.dquote; ",";
      Str.dquote; "avg_volume"; Str.dquote; ",";
      Str.dquote; "avg_range"; Str.dquote; Str.newline;
      Str.dquote; "3"; Str.dquote; ",";
      Str.dquote; "120.5"; Str.dquote; ",";
      Str.dquote; "0.02"; Str.dquote; Str.newline ].

(** The text a value shows as once assigned to [textContent]: empty for
    null and undefined, its [String] otherwise. *)
Definition shownText (v : JsVal) : string :=
  match v with
  | VUndefined | VNull => ""
  | _ => Js.toString v
  end.



Definition twoStats : list HourlyStat :=
  [ mkHourlyStat (VNum (Zero false)) (VNum (Finite false 1 2)) (VNum (Finite false 1 1));
    mkHourlyStat (VNum (Finite false 1 1)) (VNum (Finite false 2 2)) (VNum (Finite false 2 1)) ].

(** [document.querySelectorAll('#table table, #positionsTable table')]. *)
Definition renderedTables (st : Page) : list Table :=
  (tableContainer st ++ default [] (positionsContainer st))%list.




(** ** The request of loadAnalysis (line 35) *)

Module Url.

(** The characters [encodeURIComponent] leaves as they are: letters,
    digits and - _ . ! ~ * ' ( ). *)
Definition unreserved (c : ascii) : bool :=
  let n := nat_of_ascii c in
  ((65 <=? n)%nat && (n <=? 90)%nat) || ((97 <=? n)%nat && (n <=? 122)%nat)
  || ((48 <=? n)%nat && (n <=? 57)%nat)
  || existsb (Nat.eqb n) [45; 95; 46; 33; 126; 42; 39; 40; 41]%nat.

Definition hexDigit (n : nat) : ascii :=
  if (n <? 10)%nat then ascii_of_nat (48 + n) else ascii_of_nat (55 + n).

(** One byte of the UTF-8 form of the text, escaped as a percent sign and
    two upper-case hexadecimal digits unless it is unreserved. *)
Definition encodeChar (c : ascii) : string :=
  if unreserved c then String c EmptyString
  else
    let n := nat_of_ascii c in
    String "%"%char (String (hexDigit (n / 16)) (String (hexDigit (n mod 16)) EmptyString)).

Fixpoint encodeURIComponent (s : string) : string :=
  match s with
  | EmptyString => EmptyString
  | String c r => encodeChar c +:+ encodeURIComponent r
  end.

End Url.

(** The address loadAnalysis fetches for the selected symbol [sym]. *)
Definition analysisURL (sym : string) : string :=
  "/api/analysis/" +:+ Url.encodeURIComponent sym.

(** The path of the address requested for that string.  The escaped
    symbol holds no slash, so it is the last segment of the path; the URL
    parser drops a last segment that is a single dot and, for a double dot,
    drops it together with the segment before it.  Percent escapes are not
    decoded, and a dot is never escaped, so the segment is a dot segment
    only when it is . or .. itself. *)
Definition requestedPath (sym : string) : string :=
  let segment := Url.encodeURIComponent sym in
  if String.eqb segment "." then "/api/analysis/"
  else if String.eqb segment ".." then "/api/"
  else "/api/analysis/" +:+ segment.

(** ** Sequences of events *)

(** The change events of the toggle, in order. *)
Definition themeEvents (events : list bool) (st : Page) : Page :=
  List.fold_left (fun s checked => onThemeChange checked s) events st.

(** The responses to successive analysis loads, in the order in which
    they resolve. *)
Definition analysisResponses (rs : list (Response (list HourlyStat))) (st : Page) : Page :=
  List.fold_left (fun s res => loadAnalysis res s) rs st.

Definition positionsResponses (rs : list (Response (list Position))) (st : Page) : Page :=
  List.fold_left (fun s res => loadPositions res s) rs st.

Definition failed {A : Type} (rs : list (Response A)) : nat :=
  List.length (List.filter (fun res => negb (ok res)) rs).

(** ** Reading an exported file back *)

Module Csv.

Inductive Mode : Type := RowStart | FieldStart | InField | QuoteSeen.

(** A reader of quoted comma-separated lines: [field] and [row] are the
    field and the row being read, [rows] the rows read so far. *)
Fixpoint parse (s : string) (mode : Mode) (field : string) (row : list string)
    (rows : list (list string)) : option (list (list string)) :=
  match s with
  | EmptyString =>
      match mode with
      | RowStart => Some rows
      | _ => None
      end
  | String c r =>
      match mode with
      | RowStart =>
          if Ascii.eqb c Str.newline_char then parse r RowStart EmptyString [] (rows ++ [[]])%list
          else if Ascii.eqb c Str.dquote_char then parse r InField EmptyString [] rows
          else None
      | FieldStart =>
          if Ascii.eqb c Str.dquote_char then parse r InField EmptyString row rows
          else None
      | InField =>
          if Ascii.eqb c Str.dquote_char then parse r QuoteSeen field row rows
          else parse r InField (field +:+ String c EmptyString) row rows
      | QuoteSeen =>
          if Ascii.eqb c Str.dquote_char
          then parse r InField (field +:+ Str.dquote) row rows
          else if Ascii.eqb c ","%char
          then parse r FieldStart EmptyString (row ++ [field])%list rows
          else if Ascii.eqb c Str.newline_char
          then parse r RowStart EmptyString [] (rows ++ [(row ++ [field])%list])%list
          else None
      end
  end.

Definition read (s : string) : option (list (list string)) :=
  parse s RowStart EmptyString [] [].

End Csv.

(** ** Texts *)

Fixpoint allSpaces (s : string) : bool :=
  match s with
  | EmptyString => true
  | String c r => Str.is_space c && allSpaces r
  end.

(** The texts of one column of the body of a table. *)
Definition column (i : nat) (t : Table) : list string :=
  List.map (fun r => default "" (rowTexts r !! i)) (tbody t).

(** The toggle and the marker both say what storage says. *)
Definition themeInSync (st : Page) : Prop :=
  themeToggle st = Some (bool_decide (savedTheme st = "light"))
  /\ dataTheme st = (if bool_decide (savedTheme st = "light") then Some "light" else None).

(** Every character of the text satisfies [P]. *)
Fixpoint allChars (P : ascii -> bool) (s : string) : bool :=
  match s with
  | EmptyString => true
  | String c r => P c && allChars P r
  end.

(** A text without white space: layout shows it as it is. *)
Definition plainText (t : string) : bool :=
  allChars (fun c => negb (Str.is_space c)) t.

Definition plainRow (r : Row) : bool := forallb plainText (rowTexts r).

Definition plainTable (t : Table) : bool := forallb plainRow (allRows t).

(** A record whose three values show as texts without white space, as
    numbers do. *)
Definition plainStat (r : HourlyStat) : bool :=
  plainText (shownText (hour_utc r)) && plainText (shownText (avg_volume r))
  && plainText (shownText (avg_range r)).

(** The value of a hexadecimal digit, and the reading of percent escapes
    that undoes [Url.encodeURIComponent]. *)
Definition hexValue (c : ascii) : nat :=
  let n := nat_of_ascii c in
  if (n <? 58)%nat then (n - 48)%nat else (n - 55)%nat.

Fixpoint unescape (s : string) : string :=
  match s with
  | EmptyString => EmptyString
  | String c r =>
      if Ascii.eqb c "%"%char then
        match r with
        | String h (String l r') =>
            String (ascii_of_nat (16 * hexValue h + hexValue l)) (unescape r')
        | _ => s
        end
      else String c (unescape r)
  end.

(** The file exported from the table of the records [data]. *)
Definition analysisCSV (data : list HourlyStat) : string :=
  csvLine ["hour_utc"; "avg_volume"; "avg_range"]
  +:+ Str.concat
        (List.map (fun r => csvLine [shownText (hour_utc r); shownText (avg_volume r);
                                     shownText (avg_range r)]) data).

(** The characters of the text of a number: digits, the point, the
    exponent mark and the signs. *)
Definition numberChar (c : ascii) : bool :=
  let n := nat_of_ascii c in
  ((48 <=? n)%nat && (n <=? 57)%nat)
  || existsb (Ascii.eqb c) ["."%char; "e"%char; "+"%char; "-"%char].

(** * Properties *)

(** ** Strings *)

Lemma append_cons (c : ascii) (a b : string) :
  String c a +:+ b = String c (a +:+ b).
Proof. reflexivity. Qed.

Lemma append_nil (b : string) : "" +:+ b = b.
Proof. reflexivity. Qed.

Lemma prefix_app (q s : string) :
  String.prefix q s = true <-> exists b, s = q +:+ b.
Proof.
  revert s. induction q as [|c q IH]; intros s.
  - split; [intros _; exists s; reflexivity | intros _; destruct s; reflexivity].
  - destruct s as [|d s]; simpl.
    + split; [discriminate | intros [b Hb]; discriminate].
    + destruct (ascii_dec c d) as [->|Hne].
      * rewrite IH. split; intros [b Hb]; exists b;
          rewrite append_cons in *; congruence.
      * split; [discriminate | intros [b Hb]; rewrite append_cons in Hb; congruence].
Qed.

(** [includes] is the substring test. *)
Lemma includes_substring (s q : string) :
  Str.includes s q = true <-> exists a b, s = a +:+ q +:+ b.
Proof.
  induction s as [|c s IH].
  - change (Str.includes "" q) with (String.prefix q "" || false).
    rewrite orb_false_r, prefix_app. split.
    + intros [b Hb]. exists EmptyString, b. exact Hb.
    + intros [a [b Hab]]. destruct a; [eauto | discriminate].
  - change (Str.includes (String c s) q)
      with (String.prefix q (String c s) || Str.includes s q).
    rewrite orb_true_iff, prefix_app, IH. split.
    + intros [[b Hb] | [a [b Hab]]].
      * exists EmptyString, b. exact Hb.
      * exists (String c a), b. rewrite append_cons. congruence.
    + intros [a [b Hab]]. destruct a as [|d a].
      * left. eauto.
      * right. exists a, b. rewrite append_cons in Hab. congruence.
Qed.

Lemma includes_empty (s : string) : Str.includes s "" = true.
Proof. destruct s; reflexivity. Qed.

Example trim_both_ends : Str.trim "  BTC usd  " = "BTC usd".
Proof. reflexivity. Qed.

Example toLowerCase_mixed : Str.toLowerCase "Partially FILLED #2" = "partially filled #2".
Proof. reflexivity. Qed.

(** ** Numbers and values as text *)

Example numberToString_3 : Js.numberToString (Finite false 3 1) = "3".
Proof. reflexivity. Qed.

Example numberToString_120_5 : Js.numberToString (Finite false 1205 3) = "120.5".
Proof. reflexivity. Qed.

Example numberToString_0_02 : Js.numberToString (Finite false 2 (-1)) = "0.02".
Proof. reflexivity. Qed.

Example numberToString_1e21 : Js.numberToString (Finite false 1 22) = "1e+21".
Proof. reflexivity. Qed.

Example numberToString_small : Js.numberToString (Finite true 125 (-6)) = "-1.25e-7".
Proof. reflexivity. Qed.

Example numberToString_1200 : Js.numberToString (Finite false 120 4) = "1200".
Proof. reflexivity. Qed.

Example toString_array :
  Js.toString (VArr [VStr "a"; VNull; VNum (Zero true); VArr [VBool true; VUndefined]])
  = "a,,0,true,".
Proof. reflexivity. Qed.

(** ** mapStatusToBadge *)

Lemma mapStatusToBadge_truthy (status : JsVal) :
  Js.truthy status = true ->
  mapStatusToBadge status = badge_of_text (Str.toLowerCase (Js.toString status)).
Proof.
  intros Ht. unfold mapStatusToBadge, badge_of_text. rewrite Ht. simpl.
  rewrite !orb_false_r, !orb_assoc. reflexivity.
Qed.

Lemma falsy_cases (status : JsVal) :
  Js.truthy status = false ->
  status = VUndefined \/ status = VNull \/ status = VBool false \/
  status = VNum NaN \/ (exists neg, status = VNum (Zero neg)) \/ status = VStr "".
Proof.
  destruct status as [| |b|x|s| |]; simpl; try discriminate; auto.
  - destruct b; [discriminate|auto].
  - destruct x; try discriminate; eauto 7.
  - destruct s; [auto 7|discriminate].
Qed.

Lemma mapStatusToBadge_rules (status : JsVal) :
  mapStatusToBadge status = badge_of_text (Str.toLowerCase (Js.toString status)).
Proof.
  destruct (Js.truthy status) eqn:Ht.
  - apply mapStatusToBadge_truthy, Ht.
  - destruct (falsy_cases status Ht) as [-> | [-> | [-> | [-> | [[neg ->] | ->]]]]];
      reflexivity.
Qed.

(** C1.  For every status value, mapStatusToBadge returns the category the
    rules of the specification give for the lower-cased text of the value:
    success when it contains open, active or live; otherwise muted when it
    contains closed, filled or cancel; otherwise warning when it contains
    partial, warning or risk; otherwise muted.  The undefined (missing),
    null and empty status are muted. *)
Theorem C1_mapStatusToBadge (status : JsVal) :
  mapStatusToBadge status = badge_of_text (Str.toLowerCase (Js.toString status))
  /\ mapStatusToBadge VUndefined = "muted"
  /\ mapStatusToBadge VNull = "muted"
  /\ mapStatusToBadge (VStr "") = "muted".
Proof.
  split; [|repeat split].
  destruct (Js.truthy status) eqn:Ht.
  - apply mapStatusToBadge_truthy, Ht.
  - destruct (falsy_cases status Ht) as [-> | [-> | [-> | [-> | [[neg ->] | ->]]]]];
      reflexivity.
Qed.

Example badge_precedence_open_closed :
  mapStatusToBadge (VStr "CLOSED, was Open") = "success".
Proof. reflexivity. Qed.

Example badge_precedence_closed_risk :
  mapStatusToBadge (VStr "Cancelled (risk limit)") = "muted".
Proof. reflexivity. Qed.

Example badge_partial : mapStatusToBadge (VStr "Partially done") = "warning".
Proof. reflexivity. Qed.

Example badge_falsy_number : mapStatusToBadge (VNum (Zero false)) = "muted".
Proof. reflexivity. Qed.

(** ** Failed fetches *)

Lemma not_ok_iff {A : Type} (res : Response A) :
  ok res = false <-> ~ (200 <= http_status res <= 299)%Z.
Proof.
  unfold ok. rewrite andb_false_iff, !Z.leb_gt. lia.
Qed.

(** C2.  When the response to the fetch of loadAnalysis, or of the
    positions load, has a status outside 200-299, the handler shows one
    alert and does nothing else: both table containers, the charts and
    every other part of the page are as they were before. *)
Theorem C2_failed_fetch_no_render
    (resA : Response (list HourlyStat)) (resP : Response (list Position))
    (st : Page) :
  ~ (200 <= http_status resA <= 299)%Z ->
  ~ (200 <= http_status resP <= 299)%Z ->
  (loadAnalysis resA st = alert "Error cargando análisis" st
   /\ alerts (loadAnalysis resA st) = (alerts st ++ ["Error cargando análisis"])%list
   /\ tableContainer (loadAnalysis resA st) = tableContainer st
   /\ positionsContainer (loadAnalysis resA st) = positionsContainer st
   /\ charts (loadAnalysis resA st) = charts st)
  /\
  (loadPositions resP st = alert "Error cargando posiciones" st
   /\ alerts (loadPositions resP st) = (alerts st ++ ["Error cargando posiciones"])%list
   /\ tableContainer (loadPositions resP st) = tableContainer st
   /\ positionsContainer (loadPositions resP st) = positionsContainer st
   /\ charts (loadPositions resP st) = charts st).
Proof.
  intros HA HP. apply not_ok_iff in HA, HP.
  unfold loadAnalysis, loadPositions. rewrite HA, HP. simpl.
  repeat split.
Qed.

Lemma C2_failed_fetch_no_render_witness :
  tableContainer (loadPositions (mkResponse 500%Z []) samplePage)
    = tableContainer samplePage
  /\ positionsContainer (loadPositions (mkResponse 500%Z []) samplePage)
    = positionsContainer samplePage
  /\ alerts (loadAnalysis (mkResponse 404%Z []) samplePage)
    = ["Error cargando análisis"].
Proof.
  destruct (C2_failed_fetch_no_render (mkResponse 404%Z []) (mkResponse 500%Z [])
              samplePage) as [[_ [Ha _]] [_ [_ [Ht [Hp _]]]]].
  - simpl; lia.
  - simpl; lia.
  - split; [exact Ht | split; [exact Hp | exact Ha]].
Defined.

(** ** CSV export *)

Lemma csvRow_texts (r : Row) : csvRow r = csvLine (exportedTexts r).
Proof.
  unfold csvRow, csvLine, exportedTexts, csvCell. rewrite List.map_map. reflexivity.
Qed.

Lemma tableCSV_texts (t : Table) :
  tableCSV t = Str.concat (List.map csvLine (List.map exportedTexts (allRows t))).
Proof.
  unfold tableCSV. rewrite List.map_map. f_equal.
  apply List.map_ext. intros r. apply csvRow_texts.
Qed.

Lemma collapsible_is_space (c : ascii) :
  Str.is_space c = false -> Str.is_collapsible c = false.
Proof. destruct c as [[] [] [] [] [] [] [] []]; simpl; auto. Qed.

Lemma collapseFrom_plain (t : string) :
  plainText t = true -> Str.collapseFrom false t = t.
Proof.
  induction t as [|c t IH]; [reflexivity|]. unfold plainText. simpl.
  intros [Hc Ht]%andb_true_iff. apply negb_true_iff in Hc.
  rewrite (collapsible_is_space c Hc), (IH Ht). reflexivity.
Qed.

(** Layout shows a text without white space as it is. *)
Lemma collapse_plain (t : string) : plainText t = true -> Str.collapse t = t.
Proof.
  intros Ht. unfold Str.collapse.
  replace (Str.dropCollapsible t) with t; [apply collapseFrom_plain, Ht|].
  destruct t as [|c t]; [reflexivity|]. unfold plainText in Ht. simpl in *.
  apply andb_true_iff in Ht as [Hc _]. apply negb_true_iff in Hc.
  rewrite (collapsible_is_space c Hc). reflexivity.
Qed.

Lemma exportedTexts_plain (r : Row) : plainRow r = true -> exportedTexts r = rowTexts r.
Proof.
  unfold plainRow, exportedTexts, rowTexts. generalize (rendered r). intros shown.
  induction (row_cells r) as [|c cs IH]; [reflexivity|]. simpl.
  intros [Hc Hcs]%andb_true_iff. rewrite (IH Hcs). f_equal.
  unfold innerText. destruct shown; [apply collapse_plain, Hc | reflexivity].
Qed.

Lemma map_exportedTexts_plain (rows : list Row) :
  forallb plainRow rows = true ->
  List.map exportedTexts rows = List.map rowTexts rows.
Proof.
  induction rows as [|r rows IH]; [reflexivity|]. simpl.
  intros [Hr Hrows]%andb_true_iff.
  rewrite (exportedTexts_plain r Hr), (IH Hrows). reflexivity.
Qed.

Lemma forallb_plainRow (rows : list Row) :
  forallb plainRow rows = forallb (forallb plainText) (List.map rowTexts rows).
Proof. induction rows as [|r rows IH]; [reflexivity|]. simpl. rewrite IH. reflexivity. Qed.

Lemma doubleQuotes_app (a b : string) :
  Str.doubleQuotes (a +:+ b) = Str.doubleQuotes a +:+ Str.doubleQuotes b.
Proof.
  induction a as [|c a IH]; [reflexivity|].
  rewrite append_cons. simpl. destruct (Ascii.eqb c Str.dquote_char);
    rewrite ?append_cons, IH; reflexivity.
Qed.

Example doubleQuotes_quote :
  Str.doubleQuotes ("say " +:+ Str.dquote +:+ "hi" +:+ Str.dquote)
  = "say " +:+ Str.dquote +:+ Str.dquote +:+ "hi" +:+ Str.dquote +:+ Str.dquote.
Proof. reflexivity. Qed.



(** ** Rendering the analysis *)

Lemma ok_iff {A : Type} (res : Response A) :
  ok res = true <-> (200 <= http_status res <= 299)%Z.
Proof. unfold ok. rewrite andb_true_iff, !Z.leb_le. reflexivity. Qed.

Lemma renderCharts_tables (data : list HourlyStat) (st : Page) :
  tableContainer (renderCharts data st) = tableContainer st
  /\ positionsContainer (renderCharts data st) = positionsContainer st.
Proof. split; reflexivity. Qed.

(** C5.  After a successful fetch of a sequence of HourlyStat records the
    analysis container holds one table whose header is hour_utc,
    avg_volume, avg_range and whose body has exactly one row per record,
    the i-th row showing the three fields of the i-th record (the order of
    the input, nothing sorted, merged or dropped); both charts have the
    sequence of hour_utc values as x values, and the volume and range
    sequences as y values. *)
Theorem C5_analysis_render (res : Response (list HourlyStat)) (st : Page) :
  (200 <= http_status res <= 299)%Z ->
  exists table vol range,
    tableContainer (loadAnalysis res st) = [table]
    /\ List.map rowTexts (thead table) = [["hour_utc"; "avg_volume"; "avg_range"]]
    /\ List.length (tbody table) = List.length (json res)
    /\ List.map rowTexts (tbody table)
       = List.map (fun r => [shownText (hour_utc r); shownText (avg_volume r);
                             shownText (avg_range r)]) (json res)
    /\ (forall i r, json res !! i = Some r ->
          exists tr, tbody table !! i = Some tr
            /\ rowTexts tr = [shownText (hour_utc r); shownText (avg_volume r);
                              shownText (avg_range r)])
    /\ charts (loadAnalysis res st) !! "volChart" = Some vol
    /\ charts (loadAnalysis res st) !! "rangeChart" = Some range
    /\ plot_x vol = List.map hour_utc (json res)
    /\ plot_x range = List.map hour_utc (json res)
    /\ plot_y vol = List.map avg_volume (json res)
    /\ plot_y range = List.map avg_range (json res).
Proof.
  intros Hok. apply ok_iff in Hok.
  unfold loadAnalysis. rewrite Hok. simpl.
  eexists _, _, _. split; [reflexivity|]. split; [reflexivity|].
  split; [apply List.length_map|].
  unfold analysisTable; cbn [tbody].
  split; [rewrite List.map_map; reflexivity|].
  split.
  { intros i r Hi. exists (analysisRow r). split; [|reflexivity].
    rewrite list_lookup_fmap, Hi. reflexivity. }
  split; [rewrite lookup_insert_ne by discriminate; apply lookup_insert_eq|].
  split; [apply lookup_insert_eq|].
  repeat split.
Qed.

Lemma C5_analysis_render_witness :
  exists table vol range,
    tableContainer (loadAnalysis (mkResponse 200%Z twoStats) samplePage) = [table]
    /\ List.map rowTexts (tbody table) = [["0"; "10"; "1"]; ["1"; "20"; "2"]]
    /\ charts (loadAnalysis (mkResponse 200%Z twoStats) samplePage) !! "volChart" = Some vol
    /\ charts (loadAnalysis (mkResponse 200%Z twoStats) samplePage) !! "rangeChart" = Some range
    /\ plot_x vol = [VNum (Zero false); VNum (Finite false 1 1)]
    /\ plot_x range = [VNum (Zero false); VNum (Finite false 1 1)].
Proof.
  destruct (C5_analysis_render (mkResponse 200%Z twoStats) samplePage)
    as (table & vol & range & Ht & _ & _ & Hb & _ & Hv & Hr & Hxv & Hxr & _).
  - simpl; lia.
  - exists table, vol, range.
    split; [exact Ht|]. split; [exact Hb|]. split; [exact Hv|].
    split; [exact Hr|]. split; [exact Hxv | exact Hxr].
Defined.

(** ** Theme *)




(** ** Rendering the positions *)

Lemma shownText_spec (v : JsVal) :
  (v = VNull \/ v = VUndefined -> shownText v = "")
  /\ (v <> VNull -> v <> VUndefined -> shownText v = Js.toString v).
Proof.
  split.
  - intros [-> | ->]; reflexivity.
  - intros Hn Hu. destruct v; try reflexivity; congruence.
Qed.

Lemma asTextContent_nullish (v : JsVal) :
  Js.asTextContent (Js.nullish v (VStr "")) = shownText v.
Proof. destruct v; reflexivity. Qed.

(** C7.  Each row renderPositionsTable builds for a Position has five
    cells: symbol, side, size and entry_price show the empty string when
    the field is null or undefined and the String of the value otherwise
    (0 shows as 0, false as false), and the status cell holds a span that
    shows the status the same way and whose class is badge, a space, and
    the category the rules of the specification give for the lower-cased
    text of the status, which is the category mapStatusToBadge returns.
    The body of the rendered table is these rows, one per position in
    order. *)
Theorem C7_position_cells (p : Position) :
  List.map cell_content (row_cells (positionRow p))
    = [ Text (shownText (p_symbol p)); Text (shownText (p_side p));
        Text (shownText (p_size p)); Text (shownText (p_entry_price p));
        Span ("badge " +:+ badge_of_text (Str.toLowerCase (Js.toString (p_status p))))
             (shownText (p_status p)) ]
  /\ List.map cell_content (row_cells (positionRow p))
     = [ Text (shownText (p_symbol p)); Text (shownText (p_side p));
         Text (shownText (p_size p)); Text (shownText (p_entry_price p));
         Span ("badge " +:+ mapStatusToBadge (p_status p)) (shownText (p_status p)) ]
  /\ mapStatusToBadge (p_status p)
     = badge_of_text (Str.toLowerCase (Js.toString (p_status p)))
  /\ (forall v, (v = VNull \/ v = VUndefined -> shownText v = "")
                /\ (v <> VNull -> v <> VUndefined -> shownText v = Js.toString v))
  /\ shownText (VNum (Zero false)) = "0"
  /\ shownText (VBool false) = "false"
  /\ (forall positions st old,
        positionsContainer st = Some old ->
        positionsContainer (renderPositionsTable positions st)
          = Some [positionsTable positions]
        /\ tbody (positionsTable positions) = List.map positionRow positions
        /\ List.map rowTexts (thead (positionsTable positions))
           = [["symbol"; "side"; "size"; "entry_price"; "status"]]).
Proof.
  assert (Hcells : List.map cell_content (row_cells (positionRow p))
     = [ Text (shownText (p_symbol p)); Text (shownText (p_side p));
         Text (shownText (p_size p)); Text (shownText (p_entry_price p));
         Span ("badge " +:+ mapStatusToBadge (p_status p)) (shownText (p_status p)) ]).
  { unfold positionRow, positionCell, statusCell. simpl.
    rewrite !asTextContent_nullish. reflexivity. }
  split; [rewrite Hcells, mapStatusToBadge_rules; reflexivity|].
  split; [exact Hcells|].
  split; [apply mapStatusToBadge_rules|].
  split; [exact shownText_spec|].
  split; [reflexivity|]. split; [reflexivity|].
  intros positions st old Hc. unfold renderPositionsTable. rewrite Hc.
  repeat split.
Qed.

Example position_row_open_status :
  List.map cell_content
    (row_cells (positionRow
       (mkPosition (VStr "BTCUSD") (VStr "long") (VNum (Finite false 5 0))
                   (VNum (Finite false 42 5)) (VStr "OPEN"))))
  = [Text "BTCUSD"; Text "long"; Text "0.5"; Text "42000"; Span "badge success" "OPEN"].
Proof. reflexivity. Qed.

Example position_row_missing_fields :
  List.map cell_content
    (row_cells (positionRow
       (mkPosition (VStr "ETHUSD") VNull (VNum (Zero false)) VUndefined VUndefined)))
  = [Text "ETHUSD"; Text ""; Text "0"; Text ""; Span "badge muted" ""].
Proof. reflexivity. Qed.

(** ** Export without a table *)

(** C8.  When #table holds no table, exportCurrentTableCSV shows one alert
    and stops: no file is produced and nothing else on the page changes.
    In every case the export neither reads nor writes the positions
    container: replacing its content before the export or after it gives
    the same page, and the same downloads. *)
Theorem C8_export_without_table (st : Page) :
  tableContainer st = [] ->
  exportCurrentTableCSV st = alert "No hay tabla para exportar" st
  /\ alerts (exportCurrentTableCSV st) = (alerts st ++ ["No hay tabla para exportar"])%list
  /\ downloads (exportCurrentTableCSV st) = downloads st
  /\ tableContainer (exportCurrentTableCSV st) = tableContainer st
  /\ positionsContainer (exportCurrentTableCSV st) = positionsContainer st
  /\ charts (exportCurrentTableCSV st) = charts st
  /\ (forall (page : Page) (c : option (list Table)),
        exportCurrentTableCSV (set_positionsContainer c page)
          = set_positionsContainer c (exportCurrentTableCSV page)
        /\ downloads (exportCurrentTableCSV (set_positionsContainer c page))
           = downloads (exportCurrentTableCSV page)).
Proof.
  intros Hc.
  assert (He : exportCurrentTableCSV st = alert "No hay tabla para exportar" st).
  { unfold exportCurrentTableCSV. rewrite Hc. reflexivity. }
  rewrite He. do 6 (split; [reflexivity|]).
  intros page c. unfold exportCurrentTableCSV. simpl.
  destruct (tableContainer page); split; reflexivity.
Qed.

Lemma C8_export_without_table_witness :
  downloads (exportCurrentTableCSV
               (loadPositions (mkResponse 200%Z samplePositions) emptyPage)) = []
  /\ alerts (exportCurrentTableCSV
               (loadPositions (mkResponse 200%Z samplePositions) emptyPage))
     = ["No hay tabla para exportar"].
Proof.
  destruct (C8_export_without_table
              (loadPositions (mkResponse 200%Z samplePositions) emptyPage))
    as (_ & Ha & Hd & _).
  - reflexivity.
  - split; [exact Hd | exact Ha].
Defined.

(** ** The symbol catalogue *)

(** C9.  Whatever options the selector held, after fetchSymbols it holds
    exactly one option per entry of the fetched array of symbol strings,
    in order, each with value and text equal to the symbol; nothing of the
    previous options is left. *)
Theorem C9_fetchSymbols_replaces (code : Z) (symbols : list string) (st : Page) :
  symbolOptions (fetchSymbols (mkResponse code (List.map VStr symbols)) st)
    = List.map (fun s => mkOption s s) symbols
  /\ List.length (symbolOptions (fetchSymbols (mkResponse code (List.map VStr symbols)) st))
     = List.length symbols
  /\ (forall previous,
        symbolOptions (fetchSymbols (mkResponse code (List.map VStr symbols))
                         (set_symbolOptions previous st))
        = symbolOptions (fetchSymbols (mkResponse code (List.map VStr symbols)) st)).
Proof.
  unfold fetchSymbols. simpl. rewrite List.map_map. simpl.
  split; [reflexivity|]. split; [apply List.length_map | reflexivity].
Qed.

Example fetchSymbols_twice :
  symbolOptions
    (fetchSymbols (mkResponse 200%Z [VStr "ETHUSD"])
       (fetchSymbols (mkResponse 200%Z [VStr "BTCUSD"; VStr "XRPUSD"]) emptyPage))
  = [mkOption "ETHUSD" "ETHUSD"].
Proof. reflexivity. Qed.

(** ** Export and filter *)

Lemma rowTexts_filterTable (q : string) (t : Table) :
  List.map rowTexts (allRows (filterTable q t)) = List.map rowTexts (allRows t).
Proof.
  unfold allRows, filterTable. simpl. rewrite !List.map_app, List.map_map.
  reflexivity.
Qed.

Lemma plainTable_filterTable (q : string) (t : Table) :
  plainTable (filterTable q t) = plainTable t.
Proof.
  unfold plainTable. rewrite !forallb_plainRow, rowTexts_filterTable. reflexivity.
Qed.

Lemma tableCSV_plain (t : Table) :
  plainTable t = true ->
  tableCSV t = Str.concat (List.map csvLine (List.map rowTexts (allRows t))).
Proof.
  intros Ht. rewrite tableCSV_texts, (map_exportedTexts_plain _ Ht). reflexivity.
Qed.

Lemma tableCSV_filterTable (q : string) (t : Table) :
  plainTable t = true -> tableCSV (filterTable q t) = tableCSV t.
Proof.
  intros Ht. rewrite (tableCSV_plain t Ht), tableCSV_plain, rowTexts_filterTable.
  - reflexivity.
  - rewrite plainTable_filterTable. exact Ht.
Qed.




Example export_after_filter :
  List.map download_body
    (downloads (exportCurrentTableCSV
                  (filterTables "no such text"
                     (loadAnalysis (mkResponse 200%Z sampleStats) emptyPage))))
  = [exampleCSV].
Proof. reflexivity. Qed.

(** ** Filtering *)

Lemma renderedTables_filterTables (q : string) (st : Page) :
  renderedTables (filterTables q st) = List.map (filterTable q) (renderedTables st).
Proof.
  unfold renderedTables, filterTables. simpl. rewrite List.map_app.
  destruct (positionsContainer st); reflexivity.
Qed.


Lemma filterRow_empty (r : Row) : filterRow "" r = mkRow "" (row_cells r).
Proof. reflexivity. Qed.










(** The search box lower-cases and trims what was typed, so the match is
    case-insensitive, and an emptied box shows every body row again. *)
Example search_is_case_insensitive :
  onSearchInput " BTC " samplePage = filterTables "btc" samplePage.
Proof. reflexivity. Qed.

Example search_cleared :
  onSearchInput "" (onSearchInput " BTC " samplePage) = samplePage.
Proof. reflexivity. Qed.

(** * Further properties of the script *)

(** ** Theme: events and reload *)

Lemma eqb_light (s : string) : String.eqb s "light" = bool_decide (s = "light").
Proof.
  destruct (String.eqb_spec s "light") as [->|Hne]; [reflexivity|].
  symmetry. apply bool_decide_eq_false. exact Hne.
Qed.

Lemma initTheme_inSync (st : Page) (c : bool) :
  themeToggle st = Some c -> themeInSync (initTheme st).
Proof.
  intros Hc. unfold themeInSync, initTheme, savedTheme. simpl. rewrite Hc.
  fold (savedTheme st). rewrite eqb_light. split; reflexivity.
Qed.

Lemma onThemeChange_inSync (checked c : bool) (st : Page) :
  themeToggle st = Some c ->
  themeInSync (onThemeChange checked st)
  /\ localStorage (onThemeChange checked st) !! "theme"
     = Some (if checked then "light" else "dark")
  /\ (forall k, k <> "theme" ->
        localStorage (onThemeChange checked st) !! k = localStorage st !! k).
Proof.
  intros Hc. unfold onThemeChange. rewrite Hc.
  destruct checked; unfold themeInSync, savedTheme; simpl;
    rewrite lookup_insert_eq; simpl;
    (split; [split; reflexivity|]); (split; [reflexivity|]);
    intros k Hk; apply lookup_insert_ne; congruence.
Qed.

Lemma themeEvents_snoc (events : list bool) (c : bool) (st : Page) :
  themeEvents (events ++ [c]) st = onThemeChange c (themeEvents events st).
Proof. unfold themeEvents. rewrite List.fold_left_app. reflexivity. Qed.

Lemma themeEvents_toggle (events : list bool) (st : Page) (c : bool) :
  themeToggle st = Some c -> exists c', themeToggle (themeEvents events st) = Some c'.
Proof.
  revert st c. induction events as [|e events IH]; intros st c Hc; [eauto|].
  simpl. apply (IH _ e). unfold onThemeChange. rewrite Hc. destruct e; reflexivity.
Qed.

(** X1.  On a page with the toggle, after loading and any sequence of
    change events the toggle, the marker and storage agree: the toggle is
    checked and the root carries the light marker exactly when the stored
    theme is light.  The events write no key of storage but theme. *)
Theorem X1_theme_stays_in_sync (events : list bool) (st : Page) (c : bool) :
  themeToggle st = Some c ->
  themeInSync (themeEvents events (initTheme st))
  /\ (forall k, k <> "theme" ->
        localStorage (themeEvents events (initTheme st)) !! k = localStorage st !! k).
Proof.
  intros Hc. induction events as [|e events IH] using rev_ind.
  - split; [exact (initTheme_inSync st c Hc) | reflexivity].
  - rewrite themeEvents_snoc.
    destruct (themeEvents_toggle events (initTheme st) (String.eqb (savedTheme st) "light"))
      as [c' Hc'].
    { unfold initTheme. simpl. rewrite Hc. reflexivity. }
    destruct (onThemeChange_inSync e c' _ Hc') as (Hsync & _ & Hframe).
    split; [exact Hsync|]. intros k Hk. rewrite (Hframe k Hk). apply IH, Hk.
Qed.

Lemma X1_theme_stays_in_sync_witness :
  themeInSync (themeEvents [true; false; true] (initTheme emptyPage)).
Proof.
  destruct (X1_theme_stays_in_sync [true; false; true] emptyPage false) as [H _].
  - reflexivity.
  - exact H.
Defined.

(** X2.  The position of the toggle survives a reload, for light and for
    dark alike: when a page is loaded with the storage left by a sequence
    of change events ending in [checked], loading puts the toggle in the
    state [checked] and the marker is light exactly when [checked]. *)
Theorem X2_theme_survives_reload
    (events : list bool) (checked c c' : bool) (st reloaded : Page) :
  themeToggle st = Some c ->
  themeToggle reloaded = Some c' ->
  localStorage reloaded = localStorage (themeEvents (events ++ [checked]) st) ->
  themeToggle (initTheme reloaded) = Some checked
  /\ dataTheme (initTheme reloaded) = (if checked then Some "light" else None).
Proof.
  intros Hc Hc' Hs. rewrite themeEvents_snoc in Hs.
  destruct (themeEvents_toggle events st c Hc) as [c2 Hc2].
  destruct (onThemeChange_inSync checked c2 _ Hc2) as (_ & Hl & _).
  rewrite <- Hs in Hl.
  unfold initTheme, savedTheme. simpl. rewrite Hc', Hl.
  destruct checked; split; reflexivity.
Qed.

Lemma X2_theme_survives_reload_witness :
  themeToggle (initTheme (themeEvents [true; false] emptyPage)) = Some false
  /\ dataTheme (initTheme (themeEvents [true; false] emptyPage)) = None.
Proof.
  apply (X2_theme_survives_reload [true] false false false emptyPage
           (themeEvents [true; false] emptyPage)); reflexivity.
Defined.

(** ** Badges *)

Lemma lower_ascii_idem (c : ascii) :
  Str.lower_ascii (Str.lower_ascii c) = Str.lower_ascii c.
Proof. destruct c as [[] [] [] [] [] [] [] []]; reflexivity. Qed.

Lemma toLowerCase_idem (s : string) :
  Str.toLowerCase (Str.toLowerCase s) = Str.toLowerCase s.
Proof.
  induction s as [|c s IH]; [reflexivity|]. simpl. rewrite lower_ascii_idem, IH.
  reflexivity.
Qed.

Lemma toLowerCase_app (a b : string) :
  Str.toLowerCase (a +:+ b) = Str.toLowerCase a +:+ Str.toLowerCase b.
Proof.
  induction a as [|c a IH]; [reflexivity|].
  rewrite append_cons. simpl. rewrite IH, append_cons. reflexivity.
Qed.

Lemma toLowerCase_empty (s : string) :
  String.eqb (Str.toLowerCase s) "" = String.eqb s "".
Proof. destruct s; reflexivity. Qed.

Lemma mapStatusToBadge_text (s : string) :
  mapStatusToBadge (VStr s) = badge_of_text (Str.toLowerCase s).
Proof.
  destruct s as [|c s]; [reflexivity|].
  apply (mapStatusToBadge_truthy (VStr (String c s))). reflexivity.
Qed.

(** X3.  Whatever the status, the category is one of success, muted and
    warning, so the span of a status cell has one of three classes. *)
Theorem X3_badge_is_one_of_three (status : JsVal) (p : Position) :
  In (mapStatusToBadge status) ["success"; "muted"; "warning"]
  /\ exists category,
       In category ["success"; "muted"; "warning"]
       /\ cell_content (statusCell p)
          = Span ("badge " +:+ category) (shownText (p_status p)).
Proof.
  assert (H : forall v, In (mapStatusToBadge v) ["success"; "muted"; "warning"]).
  { intros v. unfold mapStatusToBadge. simpl.
    repeat match goal with |- context [if ?b then _ else _] => destruct b end;
      auto. }
  split; [apply H|]. exists (mapStatusToBadge (p_status p)).
  split; [apply H|]. unfold statusCell. simpl.
  rewrite asTextContent_nullish. reflexivity.
Qed.

(** X4.  The category of a status text does not depend on the case of
    its letters: two texts with the same lower-case form get the same
    category. *)
Theorem X4_badge_ignores_case (s t : string) :
  Str.toLowerCase s = Str.toLowerCase t ->
  mapStatusToBadge (VStr s) = mapStatusToBadge (VStr t).
Proof. intros H. rewrite !mapStatusToBadge_text, H. reflexivity. Qed.

Lemma X4_badge_ignores_case_witness :
  mapStatusToBadge (VStr "Partially FILLED") = mapStatusToBadge (VStr "partially filled").
Proof. apply X4_badge_ignores_case. reflexivity. Defined.

Lemma includes_middle (a k b : string) : Str.includes (a +:+ k +:+ b) k = true.
Proof. apply includes_substring. exists a, b. reflexivity. Qed.

(** X5.  A status text in which open, active or live occurs anywhere, in
    any letter case, is a success, whatever else the text contains (closed,
    risk, ...). *)
Theorem X5_success_keyword_wins (a k b : string) :
  In (Str.toLowerCase k) ["open"; "active"; "live"] ->
  mapStatusToBadge (VStr (a +:+ k +:+ b)) = "success".
Proof.
  intros Hk. rewrite mapStatusToBadge_text, !toLowerCase_app.
  pose proof (includes_middle (Str.toLowerCase a) (Str.toLowerCase k)
                (Str.toLowerCase b)) as Hin.
  unfold badge_of_text. simpl.
  destruct Hk as [Hk | [Hk | [Hk | []]]]; rewrite Hk, Hin;
    rewrite ?orb_true_r; reflexivity.
Qed.

Lemma X5_success_keyword_wins_witness :
  mapStatusToBadge (VStr "closed, then re-OPENed (risk)") = "success".
Proof.
  apply (X5_success_keyword_wins "closed, then re-" "OPEN" "ed (risk)").
  simpl. auto.
Defined.

(** ** Successive loads *)

Lemma asTextContent_shown (v : JsVal) : Js.asTextContent v = shownText v.
Proof. destruct v; reflexivity. Qed.

Lemma analysisResponses_snoc rs (res : Response (list HourlyStat)) (st : Page) :
  analysisResponses (rs ++ [res]) st = loadAnalysis res (analysisResponses rs st).
Proof. unfold analysisResponses. rewrite List.fold_left_app. reflexivity. Qed.

Lemma positionsResponses_snoc rs (res : Response (list Position)) (st : Page) :
  positionsResponses (rs ++ [res]) st = loadPositions res (positionsResponses rs st).
Proof. unfold positionsResponses. rewrite List.fold_left_app. reflexivity. Qed.

Lemma failed_snoc {A : Type} (rs : list (Response A)) (res : Response A) :
  failed (rs ++ [res]) = (failed rs + (if ok res then 0 else 1))%nat.
Proof.
  unfold failed. rewrite List.filter_app, List.length_app. simpl.
  destruct (ok res); reflexivity.
Qed.

Lemma failed_all {A : Type} (rs : list (Response A)) :
  Forall (fun res => ok res = false) rs -> failed rs = List.length rs.
Proof.
  unfold failed. induction 1 as [|res rs Hres _ IH]; [reflexivity|].
  simpl. rewrite Hres. simpl. rewrite IH. reflexivity.
Qed.

Lemma failed_app {A : Type} (rs rs' : list (Response A)) :
  failed (rs ++ rs') = (failed rs + failed rs')%nat.
Proof. unfold failed. rewrite List.filter_app, List.length_app. reflexivity. Qed.

Lemma failed_cons {A : Type} (res : Response A) (rs : list (Response A)) :
  failed (res :: rs) = ((if ok res then 0 else 1) + failed rs)%nat.
Proof. unfold failed. simpl. destruct (ok res); reflexivity. Qed.

Lemma repeat_snoc {A : Type} (x : A) (n : nat) :
  (repeat x n ++ [x])%list = repeat x (S n).
Proof. induction n as [|n IH]; [reflexivity|]. simpl. rewrite IH. reflexivity. Qed.

Lemma analysisResponses_alerts rs (st : Page) :
  alerts (analysisResponses rs st)
  = (alerts st ++ repeat "Error cargando análisis" (failed rs))%list.
Proof.
  induction rs as [|res rs IH] using rev_ind.
  - simpl. rewrite List.app_nil_r. reflexivity.
  - rewrite analysisResponses_snoc, failed_snoc. unfold loadAnalysis.
    destruct (ok res); simpl; rewrite IH.
    + rewrite Nat.add_0_r. reflexivity.
    + rewrite <- List.app_assoc, repeat_snoc, Nat.add_1_r. reflexivity.
Qed.

Lemma analysisResponses_failed rs (st : Page) :
  Forall (fun res => ok res = false) rs ->
  tableContainer (analysisResponses rs st) = tableContainer st
  /\ charts (analysisResponses rs st) = charts st.
Proof.
  induction rs as [|res rs IH] using rev_ind; intros Hall; [split; reflexivity|].
  apply Forall_app in Hall as [Hrs Hres]. apply Forall_inv in Hres.
  rewrite analysisResponses_snoc. unfold loadAnalysis. rewrite Hres. simpl.
  apply IH, Hrs.
Qed.

(** X6.  Of a sequence of responses to analysis loads, the last successful
    one decides what is shown: the container holds the table of its
    records alone and both charts plot its records, whatever was rendered
    before and however many failed responses come after; every failed
    response of the sequence has added one alert and nothing else.  The
    positions container is never touched. *)
Theorem X6_last_successful_analysis_wins
    (before after : list (Response (list HourlyStat)))
    (res : Response (list HourlyStat)) (st : Page) :
  ok res = true ->
  Forall (fun r => ok r = false) after ->
  tableContainer (analysisResponses (before ++ res :: after) st)
    = [analysisTable (json res)]
  /\ (exists vol range,
        charts (analysisResponses (before ++ res :: after) st) !! "volChart" = Some vol
        /\ charts (analysisResponses (before ++ res :: after) st) !! "rangeChart" = Some range
        /\ plot_x vol = List.map hour_utc (json res)
        /\ plot_y vol = List.map avg_volume (json res)
        /\ plot_x range = List.map hour_utc (json res)
        /\ plot_y range = List.map avg_range (json res))
  /\ alerts (analysisResponses (before ++ res :: after) st)
     = (alerts st ++ repeat "Error cargando análisis"
                       (failed before + List.length after))%list
  /\ positionsContainer (analysisResponses (before ++ res :: after) st)
     = positionsContainer st.
Proof.
  intros Hok Hafter.
  assert (Hsplit : analysisResponses (before ++ res :: after) st
                   = analysisResponses after
                       (loadAnalysis res (analysisResponses before st))).
  { unfold analysisResponses. rewrite List.fold_left_app. reflexivity. }
  split; [|split; [|split]].
  - rewrite Hsplit.
    destruct (analysisResponses_failed after
                (loadAnalysis res (analysisResponses before st)) Hafter) as [-> _].
    unfold loadAnalysis. rewrite Hok. reflexivity.
  - rewrite Hsplit.
    destruct (analysisResponses_failed after
                (loadAnalysis res (analysisResponses before st)) Hafter) as [_ ->].
    unfold loadAnalysis. rewrite Hok. simpl.
    eexists _, _.
    split; [rewrite lookup_insert_ne by discriminate; apply lookup_insert_eq|].
    split; [apply lookup_insert_eq|]. repeat split.
  - rewrite analysisResponses_alerts, failed_app, failed_cons, Hok.
    rewrite (failed_all after Hafter). reflexivity.
  - clear Hsplit Hok Hafter. generalize (before ++ res :: after)%list. intros rs.
    induction rs as [|r rs IH] using rev_ind; [reflexivity|].
    rewrite analysisResponses_snoc. unfold loadAnalysis.
    destruct (ok r); simpl; exact IH.
Qed.

Lemma X6_last_successful_analysis_wins_witness :
  tableContainer
    (analysisResponses
       [mkResponse 200%Z twoStats; mkResponse 503%Z []; mkResponse 200%Z sampleStats;
        mkResponse 404%Z twoStats] emptyPage)
  = [analysisTable sampleStats].
Proof.
  destruct (X6_last_successful_analysis_wins
              [mkResponse 200%Z twoStats; mkResponse 503%Z []] [mkResponse 404%Z twoStats]
              (mkResponse 200%Z sampleStats) emptyPage) as [H _].
  - reflexivity.
  - repeat constructor.
  - exact H.
Defined.

Lemma positionsResponses_failed rs (st : Page) :
  Forall (fun res => ok res = false) rs ->
  positionsContainer (positionsResponses rs st) = positionsContainer st.
Proof.
  induction rs as [|res rs IH] using rev_ind; intros Hall; [reflexivity|].
  apply Forall_app in Hall as [Hrs Hres]. apply Forall_inv in Hres.
  rewrite positionsResponses_snoc. unfold loadPositions. rewrite Hres. simpl.
  apply IH, Hrs.
Qed.

Lemma positionsResponses_container rs (st : Page) :
  positionsContainer st = None -> positionsContainer (positionsResponses rs st) = None.
Proof.
  intros Hnone. induction rs as [|res rs IH] using rev_ind; [exact Hnone|].
  rewrite positionsResponses_snoc. unfold loadPositions, renderPositionsTable.
  destruct (ok res); simpl; [rewrite IH|]; exact IH.
Qed.

Lemma positionsResponses_container_some rs (st : Page) (ts : list Table) :
  positionsContainer st = Some ts ->
  exists ts', positionsContainer (positionsResponses rs st) = Some ts'.
Proof.
  intros Hsome. induction rs as [|res rs [ts' IH]] using rev_ind; [eauto|].
  rewrite positionsResponses_snoc. unfold loadPositions, renderPositionsTable.
  destruct (ok res); simpl; rewrite IH; eauto.
Qed.

(** X7.  Of a sequence of responses to positions loads, the last successful
    one decides what is shown when the page has the element #positionsTable:
    the container then holds the table of its positions alone.  On a page
    without that element nothing is ever rendered, and successful responses
    leave the page exactly as it was. *)
Theorem X7_last_successful_positions_wins
    (before after : list (Response (list Position)))
    (res : Response (list Position)) (st : Page) :
  ok res = true ->
  Forall (fun r => ok r = false) after ->
  positionsContainer (positionsResponses (before ++ res :: after) st)
    = match positionsContainer st with
      | Some _ => Some [positionsTable (json res)]
      | None => None
      end
  /\ (positionsContainer st = None -> loadPositions res st = st).
Proof.
  intros Hok Hafter. split.
  - assert (Hsplit : positionsResponses (before ++ res :: after) st
                     = positionsResponses after
                         (loadPositions res (positionsResponses before st))).
    { unfold positionsResponses. rewrite List.fold_left_app. reflexivity. }
    rewrite Hsplit, (positionsResponses_failed after _ Hafter).
    unfold loadPositions, renderPositionsTable. rewrite Hok. simpl.
    destruct (positionsContainer st) as [ts|] eqn:Hc.
    + destruct (positionsResponses_container_some before st ts Hc) as [ts' ->].
      reflexivity.
    + rewrite (positionsResponses_container before st Hc).
      apply (positionsResponses_container before st Hc).
  - intros Hnone. unfold loadPositions, renderPositionsTable.
    rewrite Hok, Hnone. reflexivity.
Qed.

Lemma X7_last_successful_positions_wins_witness :
  positionsContainer
    (positionsResponses
       [mkResponse 200%Z []; mkResponse 200%Z samplePositions; mkResponse 500%Z []]
       emptyPage)
  = Some [positionsTable samplePositions].
Proof.
  destruct (X7_last_successful_positions_wins
              [mkResponse 200%Z []] [mkResponse 500%Z []]
              (mkResponse 200%Z samplePositions) emptyPage) as [H _].
  - reflexivity.
  - repeat constructor.
  - exact H.
Defined.

(** X8.  The two loaders do not interfere: when at least one of the two
    responses is successful, the page is the same whichever of the analysis
    response and the positions response is handled first. *)
Theorem X8_loaders_commute
    (resA : Response (list HourlyStat)) (resP : Response (list Position)) (st : Page) :
  ok resA = true \/ ok resP = true ->
  loadAnalysis resA (loadPositions resP st) = loadPositions resP (loadAnalysis resA st).
Proof.
  intros Hok. unfold loadAnalysis, loadPositions, renderPositionsTable.
  destruct (ok resA), (ok resP); simpl.
  - destruct (positionsContainer st); reflexivity.
  - reflexivity.
  - destruct (positionsContainer st); reflexivity.
  - destruct Hok; discriminate.
Qed.

Lemma X8_loaders_commute_witness :
  loadAnalysis (mkResponse 200%Z sampleStats)
    (loadPositions (mkResponse 500%Z []) emptyPage)
  = loadPositions (mkResponse 500%Z [])
      (loadAnalysis (mkResponse 200%Z sampleStats) emptyPage).
Proof. apply X8_loaders_commute. left. reflexivity. Defined.

(** ** Reading the export back *)

Lemma append_assoc (a b c : string) : (a +:+ b) +:+ c = a +:+ (b +:+ c).
Proof.
  induction a as [|x a IH]; [reflexivity|].
  rewrite !append_cons, IH. reflexivity.
Qed.

Lemma append_empty_r (a : string) : a +:+ "" = a.
Proof.
  induction a as [|x a IH]; [reflexivity|]. rewrite append_cons, IH. reflexivity.
Qed.

Lemma parse_field (t f rest : string) (row : list string) (rows : list (list string)) :
  Csv.parse (Str.doubleQuotes t +:+ rest) Csv.InField f row rows
  = Csv.parse rest Csv.InField (f +:+ t) row rows.
Proof.
  revert f. induction t as [|c t IH]; intros f.
  - rewrite append_empty_r. reflexivity.
  - simpl. destruct (Ascii.eqb_spec c Str.dquote_char) as [->|Hne].
    + rewrite !append_cons. simpl. rewrite IH.
      unfold Str.dquote. rewrite append_assoc. reflexivity.
    + rewrite append_cons. simpl.
      destruct (Ascii.eqb_spec c Str.dquote_char) as [He|_]; [congruence|].
      rewrite IH, append_assoc. reflexivity.
Qed.

Lemma parse_quoted (t rest : string) (row : list string) (rows : list (list string)) :
  Csv.parse (Str.dquote +:+ Str.doubleQuotes t +:+ Str.dquote +:+ rest)
            Csv.FieldStart "" row rows
  = Csv.parse rest Csv.QuoteSeen t row rows.
Proof.
  unfold Str.dquote at 1. rewrite append_cons, append_nil. simpl.
  rewrite parse_field. unfold Str.dquote.
  rewrite append_cons, !append_nil. simpl. reflexivity.
Qed.

Lemma csvLine_one (t : string) :
  csvLine [t] = Str.dquote +:+ Str.doubleQuotes t +:+ Str.dquote +:+ Str.newline.
Proof. unfold csvLine. simpl. rewrite !append_assoc. reflexivity. Qed.

Lemma csvLine_cons (t t2 : string) (texts : list string) :
  csvLine (t :: t2 :: texts)
  = Str.dquote +:+ Str.doubleQuotes t +:+ Str.dquote +:+ "," +:+ csvLine (t2 :: texts).
Proof.
  unfold csvLine.
  change (Str.join "," (List.map ?f (t :: t2 :: texts)))
    with (f t +:+ "," +:+ Str.join "," (List.map f (t2 :: texts))).
  cbv beta. rewrite !append_assoc. reflexivity.
Qed.

Lemma parse_fields (t : string) (texts : list string) (rest : string)
    (row : list string) (rows : list (list string)) :
  Csv.parse (csvLine (t :: texts) +:+ rest) Csv.FieldStart "" row rows
  = Csv.parse rest Csv.RowStart "" [] (rows ++ [(row ++ t :: texts)%list])%list.
Proof.
  revert t row. induction texts as [|t2 texts IH]; intros t row.
  - rewrite csvLine_one, !append_assoc, parse_quoted.
    unfold Str.newline. rewrite append_cons, append_nil. reflexivity.
  - rewrite csvLine_cons, !append_assoc, parse_quoted.
    rewrite append_cons, append_nil. simpl.
    rewrite IH, <- List.app_assoc. reflexivity.
Qed.

Lemma parse_line (texts : list string) (rest : string) (rows : list (list string)) :
  Csv.parse (csvLine texts +:+ rest) Csv.RowStart "" [] rows
  = Csv.parse rest Csv.RowStart "" [] (rows ++ [texts])%list.
Proof.
  destruct texts as [|t texts].
  - reflexivity.
  - transitivity (Csv.parse (csvLine (t :: texts) +:+ rest) Csv.FieldStart "" [] rows);
      [|exact (parse_fields t texts rest [] rows)].
    destruct texts as [|t2 texts];
      [rewrite csvLine_one | rewrite csvLine_cons];
      rewrite !append_assoc; unfold Str.dquote at 1;
      rewrite append_cons, append_nil; reflexivity.
Qed.

Lemma parse_lines (lines : list (list string)) (rows : list (list string)) :
  Csv.parse (Str.concat (List.map csvLine lines)) Csv.RowStart "" [] rows
  = Some (rows ++ lines)%list.
Proof.
  revert rows. induction lines as [|texts lines IH]; intros rows.
  - simpl. rewrite List.app_nil_r. reflexivity.
  - simpl. rewrite parse_line, IH, <- List.app_assoc. reflexivity.
Qed.

(** X9.  The quoting of the export loses nothing: read back as quoted
    comma-separated lines, the exported text gives, row by row and cell by
    cell, exactly the innerText the export read from the cells, also when
    it holds commas, double quotes or newlines; so two tables with the same
    export have the same innerText in every cell.  For a table whose cells
    hold no white space these are the texts of the cells. *)
Theorem X9_export_reads_back (t : Table) :
  Csv.read (tableCSV t) = Some (List.map exportedTexts (allRows t))
  /\ (forall t', tableCSV t = tableCSV t' ->
        List.map exportedTexts (allRows t) = List.map exportedTexts (allRows t'))
  /\ (plainTable t = true ->
        Csv.read (tableCSV t) = Some (List.map rowTexts (allRows t))).
Proof.
  assert (H : forall u, Csv.read (tableCSV u) = Some (List.map exportedTexts (allRows u))).
  { intros u. unfold Csv.read. rewrite tableCSV_texts. exact (parse_lines _ []). }
  split; [apply H|]. split.
  - intros t' Heq. pose proof (H t) as Ht. rewrite Heq, H in Ht. congruence.
  - intros Hplain. rewrite H, (map_exportedTexts_plain _ Hplain). reflexivity.
Qed.

Example export_reads_back_awkward_cells :
  Csv.read
    (tableCSV (mkTable [] []
       [mkRow "" [mkCell Td [] (Text ("a,b" +:+ Str.dquote +:+ "c"));
                  mkCell Td [] (Text "  two   words ")];
        mkRow "none" [mkCell Td [] (Text ("two" +:+ Str.newline +:+ "lines"))];
        mkRow "none" []]))
  = Some [["a,b" +:+ Str.dquote +:+ "c"; "two words"];
          ["two" +:+ Str.newline +:+ "lines"]; []].
Proof. reflexivity. Qed.

(** ** Table and charts *)

(** X11.  The table and the charts of one load show the same data: the
    first column of the table is the text of the x values of both charts,
    the second column the text of the y values of the volume chart and the
    third column the text of the y values of the range chart, row by row. *)
Theorem X11_table_matches_charts (res : Response (list HourlyStat)) (st : Page) :
  ok res = true ->
  exists table vol range,
    tableContainer (loadAnalysis res st) = [table]
    /\ charts (loadAnalysis res st) !! "volChart" = Some vol
    /\ charts (loadAnalysis res st) !! "rangeChart" = Some range
    /\ column 0 table = List.map shownText (plot_x vol)
    /\ column 0 table = List.map shownText (plot_x range)
    /\ column 1 table = List.map shownText (plot_y vol)
    /\ column 2 table = List.map shownText (plot_y range)
    /\ List.length (plot_x vol) = List.length (plot_y vol)
    /\ List.length (plot_x range) = List.length (plot_y range).
Proof.
  intros Hok. unfold loadAnalysis. rewrite Hok. simpl.
  eexists _, _, _. split; [reflexivity|].
  split; [rewrite lookup_insert_ne by discriminate; apply lookup_insert_eq|].
  split; [apply lookup_insert_eq|].
  unfold column, analysisTable. cbn [tbody plot_x plot_y barChart].
  rewrite !List.map_map, !List.length_map.
  repeat split; apply List.map_ext; intros r; simpl; apply asTextContent_shown.
Qed.

Lemma X11_table_matches_charts_witness :
  exists table vol,
    tableContainer (loadAnalysis (mkResponse 200%Z twoStats) emptyPage) = [table]
    /\ charts (loadAnalysis (mkResponse 200%Z twoStats) emptyPage) !! "volChart" = Some vol
    /\ column 1 table = List.map shownText (plot_y vol).
Proof.
  destruct (X11_table_matches_charts (mkResponse 200%Z twoStats) emptyPage)
    as (table & vol & range & Ht & Hv & _ & _ & _ & Hy & _).
  - reflexivity.
  - exists table, vol. split; [exact Ht|]. split; [exact Hv | exact Hy].
Defined.

(** X12.  A table just rendered is rectangular and fully displayed: every
    row of the analysis table has three cells and every row of the
    positions table five, like their headers, and every row is displayed.
    The query typed before is not applied to the new table, while the
    other table keeps the rows the filter had hidden. *)
Theorem X12_rendered_table_is_unfiltered
    (resA : Response (list HourlyStat)) (resP : Response (list Position))
    (q : string) (st : Page) :
  ok resA = true ->
  ok resP = true ->
  (exists table,
     tableContainer (loadAnalysis resA (filterTables q st)) = [table]
     /\ Forall (fun r => List.length (row_cells r) = 3%nat /\ row_display r = "")
               (allRows table))
  /\ (forall old, positionsContainer st = Some old ->
        exists table,
          positionsContainer (loadPositions resP (filterTables q st)) = Some [table]
          /\ Forall (fun r => List.length (row_cells r) = 5%nat /\ row_display r = "")
                    (allRows table))
  /\ positionsContainer (loadAnalysis resA (filterTables q st))
     = positionsContainer (filterTables q st)
  /\ tableContainer (loadPositions resP (filterTables q st))
     = tableContainer (filterTables q st).
Proof.
  intros HA HP. unfold loadAnalysis, loadPositions, renderPositionsTable.
  rewrite HA, HP. simpl. split; [|split; [|split]].
  - eexists. split; [reflexivity|].
    unfold allRows, analysisTable. simpl. constructor; [split; reflexivity|].
    apply Forall_fmap, Forall_true. intros r. split; reflexivity.
  - intros old ->. eexists. split; [reflexivity|].
    unfold allRows, positionsTable. simpl. constructor; [split; reflexivity|].
    apply Forall_fmap, Forall_true. intros r. split; reflexivity.
  - reflexivity.
  - destruct (positionsContainer st); reflexivity.
Qed.

Lemma X12_rendered_table_is_unfiltered_witness :
  List.map (fun t => List.map row_display (tbody t))
    (tableContainer (loadAnalysis (mkResponse 200%Z twoStats)
                       (filterTables "btc" samplePage)))
  = [[""; ""]].
Proof.
  destruct (X12_rendered_table_is_unfiltered (mkResponse 200%Z twoStats)
              (mkResponse 200%Z samplePositions) "btc" samplePage)
    as [(table & Ht & _) _]; [reflexivity | reflexivity |].
  rewrite Ht. injection Ht as <-. reflexivity.
Defined.

(** ** The search box *)

Lemma is_space_lower (c : ascii) : Str.is_space (Str.lower_ascii c) = Str.is_space c.
Proof. destruct c as [[] [] [] [] [] [] [] []]; reflexivity. Qed.

Lemma allSpaces_lower (s : string) : allSpaces (Str.toLowerCase s) = allSpaces s.
Proof.
  induction s as [|c s IH]; [reflexivity|]. simpl. rewrite is_space_lower, IH.
  reflexivity.
Qed.

Lemma trimStart_spaces (ws v : string) :
  allSpaces ws = true -> Str.trimStart (ws +:+ v) = Str.trimStart v.
Proof.
  induction ws as [|c ws IH]; [reflexivity|]. simpl.
  intros [Hc Hws]%andb_true_iff. rewrite ?append_cons. simpl. rewrite Hc.
  apply IH, Hws.
Qed.

Lemma trimEnd_all_spaces (ws : string) : allSpaces ws = true -> Str.trimEnd ws = "".
Proof.
  induction ws as [|c ws IH]; [reflexivity|]. simpl.
  intros [Hc Hws]%andb_true_iff. rewrite (IH Hws), Hc. reflexivity.
Qed.

Lemma trimEnd_spaces (v ws : string) :
  allSpaces ws = true -> Str.trimEnd (v +:+ ws) = Str.trimEnd v.
Proof.
  intros Hws. induction v as [|c v IH].
  - rewrite append_nil. apply trimEnd_all_spaces, Hws.
  - rewrite append_cons. simpl. rewrite IH. reflexivity.
Qed.

Lemma trim_spaces (ws1 v ws2 : string) :
  allSpaces ws1 = true -> allSpaces ws2 = true ->
  Str.trim (ws1 +:+ v +:+ ws2) = Str.trim v.
Proof.
  intros H1 H2. unfold Str.trim. rewrite (trimStart_spaces ws1 _ H1).
  induction v as [|c v IH].
  - rewrite append_nil.
    replace (Str.trimStart ws2) with "".
    + reflexivity.
    + clear H1. induction ws2 as [|c ws IH]; [reflexivity|].
      simpl in *. apply andb_true_iff in H2 as [Hc Hws]. rewrite Hc. apply IH, Hws.
  - rewrite append_cons. simpl. destruct (Str.is_space c); [exact IH|].
    rewrite <- append_cons. apply trimEnd_spaces, H2.
Qed.

(** X13.  White space typed around the query, and the case of its
    letters, do not matter to the search box: the page after the input is
    the same; in particular an input of white space alone shows every body
    row, as the empty input does. *)
Theorem X13_search_ignores_surrounding_space (ws1 value ws2 : string) (st : Page) :
  allSpaces ws1 = true ->
  allSpaces ws2 = true ->
  onSearchInput (ws1 +:+ value +:+ ws2) st = onSearchInput value st
  /\ onSearchInput (ws1 +:+ ws2) st = filterTables "" st
  /\ onSearchInput (Str.toLowerCase value) st = onSearchInput value st.
Proof.
  intros H1 H2. unfold onSearchInput. split; [|split].
  - rewrite !toLowerCase_app, trim_spaces; [reflexivity| |];
      rewrite allSpaces_lower; assumption.
  - rewrite <- (append_nil ws2) at 1.
    rewrite (toLowerCase_app ws1), (toLowerCase_app ""), trim_spaces;
      [reflexivity| |]; rewrite allSpaces_lower; assumption.
  - rewrite toLowerCase_idem. reflexivity.
Qed.

Lemma X13_search_ignores_surrounding_space_witness :
  onSearchInput ("  " +:+ "Eth" +:+ Str.tab) samplePage = onSearchInput "Eth" samplePage.
Proof.
  destruct (X13_search_ignores_surrounding_space "  " "Eth" Str.tab samplePage)
    as [H _]; [reflexivity | reflexivity | exact H].
Defined.








(** ** The address of an analysis *)

Lemma allChars_app (P : ascii -> bool) (a b : string) :
  allChars P (a +:+ b) = allChars P a && allChars P b.
Proof.
  induction a as [|c a IH]; [reflexivity|].
  rewrite append_cons. simpl. rewrite IH, andb_assoc. reflexivity.
Qed.

Lemma allChars_excludes (P : ascii -> bool) (s q : string) (c : ascii) :
  allChars P s = true -> P c = false -> Str.includes s (String c q) = false.
Proof.
  intros Hs Hc. induction s as [|x s IH]; [reflexivity|].
  simpl in Hs. apply andb_true_iff in Hs as [Hx Hs].
  change (Str.includes (String x s) (String c q))
    with (String.prefix (String c q) (String x s) || Str.includes s (String c q)).
  rewrite (IH Hs), orb_false_r. simpl.
  destruct (ascii_dec c x) as [->|_]; [congruence | reflexivity].
Qed.

Lemma encodeChar_safe (c : ascii) :
  allChars (fun x => Url.unreserved x || Ascii.eqb x "%"%char) (Url.encodeChar c) = true.
Proof. destruct c as [[] [] [] [] [] [] [] []]; reflexivity. Qed.

Lemma encodeURIComponent_safe (s : string) :
  allChars (fun x => Url.unreserved x || Ascii.eqb x "%"%char)
           (Url.encodeURIComponent s) = true.
Proof.
  induction s as [|c s IH]; [reflexivity|].
  simpl. rewrite allChars_app, encodeChar_safe, IH. reflexivity.
Qed.

Example analysisURL_plain : analysisURL "XBTUSD" = "/api/analysis/XBTUSD".
Proof. reflexivity. Qed.

Example analysisURL_escaped :
  analysisURL "../a b?x=1" = "/api/analysis/..%2Fa%20b%3Fx%3D1".
Proof. reflexivity. Qed.

Lemma unescape_encodeChar (c : ascii) (rest : string) :
  unescape (Url.encodeChar c +:+ rest) = String c (unescape rest).
Proof. destruct c as [[] [] [] [] [] [] [] []]; reflexivity. Qed.

Lemma unescape_encode (s : string) : unescape (Url.encodeURIComponent s) = s.
Proof.
  induction s as [|c s IH]; [reflexivity|].
  simpl. rewrite unescape_encodeChar, IH. reflexivity.
Qed.

Lemma encode_inj (s s' : string) :
  Url.encodeURIComponent s = Url.encodeURIComponent s' -> s = s'.
Proof.
  intros H. rewrite <- (unescape_encode s), <- (unescape_encode s'), H. reflexivity.
Qed.

Lemma requestedPath_ordinary (sym : string) :
  sym <> "." -> sym <> ".." ->
  requestedPath sym = "/api/analysis/" +:+ Url.encodeURIComponent sym.
Proof.
  intros H1 H2. unfold requestedPath.
  destruct (String.eqb_spec (Url.encodeURIComponent sym) ".") as [He|_].
  { destruct H1. apply encode_inj. exact He. }
  destruct (String.eqb_spec (Url.encodeURIComponent sym) "..") as [He|_].
  { destruct H2. apply encode_inj. exact He. }
  reflexivity.
Qed.

(** X15.  For every selected symbol other than . and .., the path
    loadAnalysis requests is /api/analysis/ followed by a single segment:
    the escaped symbol holds only letters, digits, the marks
    - _ . ! ~ * ' ( ) and percent escapes, so no slash, question mark,
    hash, ampersand, space or other delimiter of the symbol reaches the
    address.  The dot is not escaped: for the symbol . the path requested
    is /api/analysis/ and for the symbol .. it is /api/. *)
Theorem X15_symbol_is_one_path_segment (sym : string) :
  sym <> "." ->
  sym <> ".." ->
  (exists segment,
     requestedPath sym = "/api/analysis/" +:+ segment
     /\ segment = Url.encodeURIComponent sym
     /\ segment <> "." /\ segment <> ".."
     /\ allChars (fun x => Url.unreserved x || Ascii.eqb x "%"%char) segment = true
     /\ (forall d, In d ["/"; "?"; "#"; "&"; "="; "+"; " "; ":"; "@"; ";"; ","] ->
           Str.includes segment d = false))
  /\ requestedPath "." = "/api/analysis/"
  /\ requestedPath ".." = "/api/".
Proof.
  intros H1 H2. split; [|split; reflexivity].
  exists (Url.encodeURIComponent sym).
  split; [apply requestedPath_ordinary; assumption|]. split; [reflexivity|].
  split; [intros He; apply H1, encode_inj, He|].
  split; [intros He; apply H2, encode_inj, He|].
  pose proof (encodeURIComponent_safe sym) as Hs. split; [exact Hs|].
  intros d Hd. simpl in Hd.
  repeat (destruct Hd as [<- | Hd];
          [apply (allChars_excludes _ _ _ _ Hs); reflexivity|]).
  destruct Hd.
Qed.

Lemma X15_symbol_is_one_path_segment_witness :
  requestedPath "../a b?x=1" = "/api/analysis/..%2Fa%20b%3Fx%3D1".
Proof.
  destruct (X15_symbol_is_one_path_segment "../a b?x=1")
    as [(segment & Hp & -> & _) _]; [discriminate | discriminate | exact Hp].
Defined.

(** X16.  Two different symbols, neither of them . or .., are requested at
    different paths: the escaping loses nothing.  The symbol . is requested
    at the path of the empty symbol. *)
Theorem X16_requestedPath_injective (sym sym' : string) :
  sym <> "." -> sym <> ".." ->
  sym' <> "." -> sym' <> ".." ->
  requestedPath sym = requestedPath sym' ->
  sym = sym' /\ requestedPath "." = requestedPath "".
Proof.
  intros H1 H2 H1' H2' H.
  rewrite (requestedPath_ordinary sym H1 H2),
    (requestedPath_ordinary sym' H1' H2') in H.
  apply String.app_inj in H. split; [apply encode_inj, H | reflexivity].
Qed.

Lemma X16_requestedPath_injective_witness :
  "ETH/USD" = "ETH/USD" /\ requestedPath "." = requestedPath "".
Proof.
  apply (X16_requestedPath_injective "ETH/USD" "ETH/USD");
    (discriminate || reflexivity).
Defined.

(** ** Statuses that are not texts *)

Lemma allChars_digits (u : Decimal.uint) :
  allChars numberChar (NilEmpty.string_of_uint u) = true.
Proof. induction u; simpl; auto. Qed.

Lemma allChars_strip (P : ascii -> bool) (s : string) :
  allChars P s = true -> allChars P (Js.stripTrailingZeros s) = true.
Proof.
  induction s as [|c s IH]; [reflexivity|]. simpl.
  intros [Hc Hs]%andb_true_iff.
  destruct (Ascii.eqb c "0" && String.eqb (Js.stripTrailingZeros s) "");
    [reflexivity|]. simpl. rewrite Hc, (IH Hs). reflexivity.
Qed.

Lemma allChars_substring (P : ascii -> bool) (s : string) (n m : nat) :
  allChars P s = true -> allChars P (String.substring n m s) = true.
Proof.
  revert n m. induction s as [|c s IH]; intros n m Hs.
  - destruct n, m; reflexivity.
  - simpl in Hs. apply andb_true_iff in Hs as [Hc Hs].
    destruct n as [|n]; simpl.
    + destruct m as [|m]; [reflexivity|]. simpl. rewrite Hc. apply IH, Hs.
    + apply IH, Hs.
Qed.

Lemma allChars_zeros (n : nat) : allChars numberChar (Js.zeros n) = true.
Proof. induction n as [|n IH]; [reflexivity|]. simpl. exact IH. Qed.

Lemma allChars_finite (s : positive) (n : Z) :
  allChars numberChar (Js.finiteToString s n) = true.
Proof.
  assert (Hds : allChars numberChar (Js.stripTrailingZeros (Js.digits s)) = true).
  { apply allChars_strip, allChars_digits. }
  unfold Js.finiteToString.
  repeat match goal with |- context [if ?b then _ else _] => destruct b end;
    rewrite ?allChars_app, ?Hds, ?allChars_zeros, ?allChars_digits,
      ?(allChars_substring _ _ _ _ Hds); reflexivity.
Qed.

Lemma allChars_lower_number (s : string) :
  allChars numberChar s = true -> allChars numberChar (Str.toLowerCase s) = true.
Proof.
  induction s as [|c s IH]; [reflexivity|]. simpl.
  intros [Hc Hs]%andb_true_iff. rewrite (IH Hs), andb_true_r.
  revert Hc. destruct c as [[] [] [] [] [] [] [] []]; simpl; auto.
Qed.

Lemma badge_of_number_text (s : string) :
  allChars numberChar s = true -> badge_of_text s = "muted".
Proof.
  intros Hs. unfold badge_of_text. simpl.
  rewrite !(allChars_excludes numberChar s _ _ Hs) by reflexivity. reflexivity.
Qed.

Lemma numberChar_plain (c : ascii) :
  numberChar c = true -> negb (Str.is_space c) = true.
Proof. destruct c as [[] [] [] [] [] [] [] []]; simpl; auto. Qed.

Lemma allChars_number_plain (s : string) :
  allChars numberChar s = true -> plainText s = true.
Proof.
  unfold plainText. induction s as [|c s IH]; [reflexivity|]. simpl.
  intros [Hc Hs]%andb_true_iff. rewrite (numberChar_plain c Hc), (IH Hs). reflexivity.
Qed.

(** The text of a number holds no white space. *)
Lemma number_plain (x : JsNumber) : plainText (Js.numberToString x) = true.
Proof.
  destruct x as [|neg|neg|neg s n]; try reflexivity.
  - destruct neg; reflexivity.
  - apply allChars_number_plain. simpl.
    rewrite allChars_app, allChars_finite. destruct neg; reflexivity.
Qed.

(** X17.  A status that is a number or a boolean gets the muted category:
    the text of a finite number holds only digits, a point, signs and the
    exponent mark, and none of the keywords can occur in it, nor in NaN,
    Infinity, true or false. *)
Theorem X17_non_text_status_is_muted (x : JsNumber) (b : bool) :
  mapStatusToBadge (VNum x) = "muted"
  /\ mapStatusToBadge (VBool b) = "muted".
Proof.
  split; [|destruct b; reflexivity].
  destruct x as [|neg|neg|neg s n]; try reflexivity.
  - destruct neg; reflexivity.
  - rewrite (mapStatusToBadge_truthy (VNum (Finite neg s n)) eq_refl).
    apply badge_of_number_text, allChars_lower_number. simpl.
    rewrite allChars_app, allChars_finite. destruct neg; reflexivity.
Qed.

(** ** filterTables called with a query that is not lower case *)

Lemma allChars_lowered (s : string) :
  allChars (fun c => Ascii.eqb (Str.lower_ascii c) c) (Str.toLowerCase s) = true.
Proof.
  induction s as [|c s IH]; [reflexivity|]. simpl.
  rewrite lower_ascii_idem, Ascii.eqb_refl, IH. reflexivity.
Qed.

Lemma allChars_fixed (s : string) :
  allChars (fun c => Ascii.eqb (Str.lower_ascii c) c) s = true -> Str.toLowerCase s = s.
Proof.
  induction s as [|c s IH]; [reflexivity|]. simpl.
  intros [Hc Hs]%andb_true_iff. apply Ascii.eqb_eq in Hc.
  rewrite Hc, (IH Hs). reflexivity.
Qed.

Lemma includes_lowered (s q : string) :
  Str.includes (Str.toLowerCase s) q = true -> Str.toLowerCase q = q.
Proof.
  intros (a & b & Hab)%includes_substring.
  pose proof (allChars_lowered s) as Hs. rewrite Hab, !allChars_app in Hs.
  apply andb_true_iff in Hs as [_ Hs]. apply andb_true_iff in Hs as [Hq _].
  apply allChars_fixed, Hq.
Qed.

(** X18.  filterTables does not lower-case its query: called with a query
    that holds an upper-case letter it hides every body row of every
    rendered table, since the text of a row is compared in lower case.
    The search box lower-cases what is typed before it calls
    filterTables. *)
Theorem X18_filter_query_must_be_lower_case
    (q : string) (st : Page) (i j : nat) (t : Table) (r : Row) :
  Str.toLowerCase q <> q ->
  renderedTables st !! i = Some t ->
  tbody t !! j = Some r ->
  exists t' r',
    renderedTables (filterTables q st) !! i = Some t'
    /\ tbody t' !! j = Some r'
    /\ row_display r' = "none".
Proof.
  intros Hq Ht Hr.
  exists (filterTable q t), (filterRow q r).
  rewrite renderedTables_filterTables, list_lookup_fmap, Ht.
  split; [reflexivity|]. unfold filterTable. cbn [tbody].
  rewrite list_lookup_fmap, Hr. split; [reflexivity|].
  unfold filterRow. cbn [row_display].
  destruct (String.eqb_spec q "") as [->|_]; [destruct Hq; reflexivity|].
  destruct (Str.includes (Str.toLowerCase (row_innerText r)) q) eqn:Hin;
    [|reflexivity].
  destruct Hq. apply (includes_lowered _ _ Hin).
Qed.

Lemma X18_filter_query_must_be_lower_case_witness :
  exists t' r',
    renderedTables (filterTables "BTC" samplePage) !! 1%nat = Some t'
    /\ tbody t' !! 0%nat = Some r'
    /\ row_display r' = "none".
Proof.
  apply (X18_filter_query_must_be_lower_case "BTC" samplePage 1 0
           (positionsTable samplePositions)
           (positionRow (mkPosition (VStr "BTCUSD") (VStr "long") (VNum (Finite false 5 0))
                                    (VNum (Finite false 42 5)) (VStr "OPEN"))));
    [discriminate | reflexivity | reflexivity].
Defined.

(** ** Load, filter and export together *)

Lemma analysisTable_texts (data : list HourlyStat) :
  List.map rowTexts (allRows (analysisTable data))
  = ["hour_utc"; "avg_volume"; "avg_range"]
    :: List.map (fun r => [shownText (hour_utc r); shownText (avg_volume r);
                           shownText (avg_range r)]) data.
Proof.
  unfold allRows, analysisTable. simpl. f_equal.
  rewrite List.map_map. apply List.map_ext. intros r.
  unfold rowTexts, analysisRow, textContent. simpl.
  rewrite !asTextContent_shown. reflexivity.
Qed.

Lemma plainStat_texts (data : list HourlyStat) :
  forallb (forallb plainText)
    (List.map (fun r => [shownText (hour_utc r); shownText (avg_volume r);
                         shownText (avg_range r)]) data)
  = forallb plainStat data.
Proof.
  induction data as [|r data IH]; [reflexivity|].
  cbn [forallb List.map]. rewrite IH. f_equal. unfold plainStat.
  rewrite andb_true_r, andb_assoc. reflexivity.
Qed.

Lemma analysisTable_plain (data : list HourlyStat) :
  forallb plainStat data = true -> plainTable (analysisTable data) = true.
Proof.
  intros Hdata. unfold plainTable. rewrite forallb_plainRow, analysisTable_texts.
  apply andb_true_intro. split; [reflexivity|].
  rewrite plainStat_texts. exact Hdata.
Qed.

Lemma analysisCSV_table (data : list HourlyStat) :
  Str.concat (List.map csvLine (List.map rowTexts (allRows (analysisTable data))))
  = analysisCSV data.
Proof.
  rewrite analysisTable_texts. unfold analysisCSV.
  cbn [List.map Str.concat]. rewrite List.map_map. reflexivity.
Qed.

(** X10.  After a successful analysis load of records whose values show
    without white space, as numbers do, the export never asks for a table:
    it downloads one file, whose text is the header line followed by one
    line of three quoted fields per record, in the order of the records,
    each field showing the value as the table does.  A filter applied in
    between changes nothing of it. *)
Theorem X10_export_of_loaded_analysis
    (res : Response (list HourlyStat)) (q : string) (st : Page) :
  ok res = true ->
  forallb plainStat (json res) = true ->
  downloads (exportCurrentTableCSV (filterTables q (loadAnalysis res st)))
    = (downloads st ++
         [mkDownload "analysis_export.csv" "text/csv;charset=utf-8;"
            (analysisCSV (json res))])%list
  /\ alerts (exportCurrentTableCSV (filterTables q (loadAnalysis res st))) = alerts st
  /\ Csv.read (analysisCSV (json res))
     = Some (["hour_utc"; "avg_volume"; "avg_range"]
             :: List.map (fun r => [shownText (hour_utc r); shownText (avg_volume r);
                                    shownText (avg_range r)]) (json res))
  /\ (forall x y z, plainStat (mkHourlyStat (VNum x) (VNum y) (VNum z)) = true).
Proof.
  intros Hok Hdata. pose proof (analysisTable_plain (json res) Hdata) as Hplain.
  split; [|split; [|split]].
  - unfold exportCurrentTableCSV, filterTables, loadAnalysis. rewrite Hok. simpl.
    rewrite (tableCSV_filterTable q _ Hplain), (tableCSV_plain _ Hplain),
      analysisCSV_table. reflexivity.
  - unfold exportCurrentTableCSV, filterTables, loadAnalysis. rewrite Hok.
    reflexivity.
  - rewrite <- analysisCSV_table, analysisTable_texts. exact (parse_lines _ []).
  - intros x y z. unfold plainStat. simpl. rewrite !number_plain. reflexivity.
Qed.

Lemma X10_export_of_loaded_analysis_witness :
  List.map download_body
    (downloads (exportCurrentTableCSV
                  (filterTables "btc" (loadAnalysis (mkResponse 200%Z twoStats) samplePage))))
  = [analysisCSV twoStats].
Proof.
  destruct (X10_export_of_loaded_analysis (mkResponse 200%Z twoStats) "btc" samplePage)
    as [-> _]; reflexivity.
Defined.
